(** * QLSC: quadrilateralized spherical cube pixelization and radial index

    A shallow embedding of [qlsc/qlsc_base.py] (classes [QLSC] and
    [QLSCIndex]) together with the properties stated about it.

    Conventions of the embedding:
    - Python [int] is [Z] (unbounded); a shift is [Z.shiftl]/[Z.shiftr].
    - An angle, a face coordinate or a radius is a finite Python number and
      is represented by the rational it denotes ([Q]); the comparisons
      [<=] and [<] of the source are [Qle_bool] and [Qlt_bool].
    - A raised exception is a value of [PyExc]; a call that may raise
      returns a [Result].
    - The native module [_q3c_wrapper] (and [utilities._normalize_ang],
      [math.sin], [math.radians]) is not part of the Python source: it is the
      interface [Q3C] below, over which every definition is parametric. *)

From Stdlib Require Import ZArith QArith Qround List String Bool Lia.
Import ListNotations.

Open Scope Z_scope.

(** ** Exceptions and results *)

Inductive PyExc : Type :=
| ValueError (msg : string)
| TypeError (msg : string)
| NameError (name : string)
| IndexError
| AttributeError (msg : string)
| OperationalError (msg : string)
| ProgrammingError (msg : string)
| NotImplementedError (msg : string)
| Exception (msg : string).

Inductive Result (A : Type) : Type :=
| Ok (a : A)
| Raise (e : PyExc).

Arguments Ok {A} a.
Arguments Raise {A} e.

Definition bind {A B : Type} (r : Result A) (k : A -> Result B) : Result B :=
  match r with
  | Ok a => k a
  | Raise e => Raise e
  end.

Declare Scope py_scope.
Delimit Scope py_scope with py.
Notation "x <- e ;; k" := (bind e (fun x => k))
  (at level 61, e at next level, right associativity) : py_scope.
Notation "e ;;; k" := (bind e (fun _ => k))
  (at level 61, right associativity) : py_scope.
Open Scope py_scope.

(** [raises_ValueError r]: the call raised, and what it raised is a
    [ValueError] (the exception class behind the out-of-range and the
    missing-argument failures of this module). *)
Definition raises_ValueError {A : Type} (r : Result A) : Prop :=
  exists msg, r = Raise (ValueError msg).

(** ** Python values that reach the numeric parameters *)

Inductive PyVal : Type :=
| PyNone
| PyNum (q : Q)
| PySeq (l : list Q).

Definition is_None (v : PyVal) : bool :=
  match v with PyNone => true | _ => false end.

(** [isinstance(v, collections.abc.Iterable)] *)
Definition is_Iterable (v : PyVal) : bool :=
  match v with PySeq _ => true | _ => false end.

Definition cmp_TypeError : PyExc :=
  TypeError "'<=' not supported between instances of these types".

(** [lo <= q <= hi] on numbers, which is [lo <= q and q <= hi] *)
Definition Qin_closed (lo q hi : Q) : bool := Qle_bool lo q && Qle_bool q hi.

(** [x < y] on numbers *)
Definition Qlt_bool (x y : Q) : bool := negb (Qle_bool y x).

(** The chained comparison [lo <= v <= hi] on an argument: comparing a
    number with [None] or with a list raises [TypeError]. *)
Definition in_closed (lo : Q) (v : PyVal) (hi : Q) : Result bool :=
  match v with
  | PyNum q => Ok (Qin_closed lo q hi)
  | _ => Raise cmp_TypeError
  end.

(** [min(l)] and [max(l)] of a list of numbers: the first smallest
    (largest) element; the empty sequence raises [ValueError]. *)
Definition py_min (l : list Q) : Result Q :=
  match l with
  | [] => Raise (ValueError "min() arg is an empty sequence")
  | x :: t => Ok (fold_left (fun m y => if Qlt_bool y m then y else m) t x)
  end.

Definition py_max (l : list Q) : Result Q :=
  match l with
  | [] => Raise (ValueError "max() arg is an empty sequence")
  | x :: t => Ok (fold_left (fun m y => if Qlt_bool m y then y else m) t x)
  end.

Definition seq_of (v : PyVal) : Result (list Q) :=
  match v with
  | PySeq l => Ok l
  | _ => Raise (TypeError "object is not iterable")
  end.

(** What a conversion returns: one pixel id, or an array of them. *)
Inductive PixOut : Type :=
| OInt (ipix : Z)
| OArr (l : list Z).

(** An argument of a call: left out, or passed. *)
Inductive Arg (A : Type) : Type :=
| Omitted
| Passed (a : A).

Arguments Omitted {A}.
Arguments Passed {A} a.

(** ** The native kernel

    Functions of [_q3c_wrapper] ("qlsc_c_module.c"), of [utilities] and of
    [math] that the Python source calls.  They are parameters of the
    development. *)
Class Q3C : Type := {
  Hprm : Type;
  (** [init_q3c(nside=...)]: [None] when the structure cannot be created *)
  init_q3c : Z -> option Hprm;
  q3c_nside : Hprm -> Z;
  q3c_ang2ipix : Hprm -> Q -> Q -> Z;
  (** the same entry point handed two sequences instead of two numbers *)
  q3c_ang2ipix_seq : Hprm -> list Q -> list Q -> Result PixOut;
  q3c_ipix2ang : Hprm -> Z -> Q * Q;
  q3c_ipix2xy : Hprm -> Z -> Z * Q * Q;
  q3c_xy2ang : Q -> Q -> Z -> Q * Q;
  q3c_facenum : Hprm -> Q -> Q -> Z;
  radial_query_it : Hprm -> Q -> Q -> Q -> Z -> Z -> Z;
  sindist : Q -> Q -> Q -> Q -> Q;
  _normalize_ang : Q * Q -> Q * Q;
  sin : Q -> Q;
  deg2rad : Q -> Q
}.

(** ** class QLSC *)

Section QLSC.

Context {K : Q3C}.

Record QLSC : Type := {
  bin_level : Z;
  _hprm : Hprm
}.

(** [QLSC.__init__] *)
Definition QLSC_init (bin_level : Z) : Result QLSC :=
  if negb ((0 <=? bin_level) && (bin_level <=? 30)) then
    Raise (ValueError "The value for 'bin_level' must be an integer on [0,30]")
  else
    let nside := 2 ^ bin_level in
    match init_q3c nside with
    | None => Raise (Exception "Internal Q3C data structure could not be created.")
    | Some h => Ok {| bin_level := bin_level; _hprm := h |}
    end.

(** property [nside] *)
Definition nside (self : QLSC) : Z := q3c_nside (_hprm self).

(** property [nbins]: [int(pow(self.nside,2)) * 6].  [math.pow] works on
    doubles; [nside] is a power of two not above [2^30], whose square is
    represented exactly. *)
Definition nbins (self : QLSC) : Z := (nside self) ^ 2 * 6.

(** [QLSC.ang2ipix] *)
Definition ang2ipix (self : QLSC) (ra dec : PyVal)
    (points : option (list (Q * Q))) : Result PixOut :=
  match points with
  | None =>
      if is_None ra || is_None dec then
        Raise (ValueError "Values for 'ra','dec' must be specified.")
      else Ok tt
  | Some _ =>
      if negb (is_None ra) || negb (is_None dec) then
        Raise (ValueError "Only specify 'ra','dec' OR 'points'.")
      else Ok tt
  end ;;;
  radec <-
    (if is_Iterable ra then
       decs <- seq_of dec ;;
       lo <- py_min decs ;;
       ok_dec <- (if Qle_bool (-90) lo
                  then hi <- py_max decs ;; Ok (Qle_bool hi 90)
                  else Ok false) ;;
       if negb ok_dec then
         Raise (ValueError "ang2ipix: dec out of range [-90,90]")
       else
       ras <- seq_of ra ;;
       lo <- py_min ras ;;
       ok_ra <- (if Qle_bool 0 lo
                 then hi <- py_max ras ;; Ok (Qle_bool hi 360)
                 else Ok false) ;;
       if negb ok_ra then
         Raise (ValueError "ang2ipix: ra out of range [0,360]")
       else Ok (ra, dec)
     else
       dec_ok <- in_closed (-90) dec 90 ;;
       in_range <- (if dec_ok then in_closed 0 ra 360 else Ok false) ;;
       if negb in_range then
         match ra, dec with
         | PyNum r, PyNum d =>
             let '(r', d') := _normalize_ang (r, d) in
             Ok (PyNum r', PyNum d')
         | _, _ => Raise (TypeError "could not convert to float")
         end
       else Ok (ra, dec)) ;;
  match points with
  | None =>
      match radec with
      | (PyNum r, PyNum d) => Ok (OInt (q3c_ang2ipix (_hprm self) r d))
      | (PySeq rs, PySeq ds) => q3c_ang2ipix_seq (_hprm self) rs ds
      | _ => Raise (TypeError "a float is required")
      end
  | Some pts =>
      Ok (OArr (map (fun p => q3c_ang2ipix (_hprm self) (fst p) (snd p)) pts))
  end.

(** [QLSC.ipix2ang]; the parameter is an [int], so the [isinstance]
    test of the source passes. *)
Definition ipix2ang (self : QLSC) (ipix : Z) : Result (Q * Q) :=
  if negb ((0 <=? ipix) && (ipix <? nbins self)) then
    Raise (ValueError "The ipix number is out of bounds for this scheme")
  else Ok (q3c_ipix2ang (_hprm self) ipix).

(** [QLSC.ipix2xy] *)
Definition ipix2xy (self : QLSC) (ipix : Z) : Result (Z * Q * Q) :=
  Ok (q3c_ipix2xy (_hprm self) ipix).

(** What [xy2ang] returns: one [(ra,dec)] pair, or an array of pairs. *)
Inductive AngOut : Type :=
| AOne (p : Q * Q)
| AArr (l : list (Q * Q)).

(** [QLSC.xy2ang]; [facenum] is [None] or an [int]. *)
Definition xy2ang (self : QLSC) (facenum : option Z) (x y : option Q)
    (points : option (list (Q * Q))) : Result AngOut :=
  match facenum with
  | None => Raise (ValueError "The cube face number ('facenum') must be provided.")
  | Some f =>
      if negb ((0 <=? f) && (f <=? 5)) then
        Raise (ValueError "Values of 'facenum' must be an integer between 0 and 5")
      else
      match x, y, points with
      | Some _, Some _, Some _ =>
          Raise (ValueError "Specify only 'ra' and 'dec', or 'points'")
      | _, _, Some pts =>
          Ok (AArr (map (fun p => q3c_xy2ang (fst p) (snd p) f) pts))
      | Some xv, Some yv, None =>
          if negb (Qin_closed (-1) xv 1) && negb (Qin_closed (-1) yv 1) then
            Raise (ValueError "Values of 'x' and 'y' must be in the range [-1,1].")
          else Ok (AOne (q3c_xy2ang xv yv f))
      | _, _, None =>
          Raise (ValueError "Values for 'x' and 'y' must be specified together")
      end
  end.

(** [QLSC.xy2ipix] *)
Definition xy2ipix (self : QLSC) (facenum : option Z) (x y : option Q)
    : Result PixOut :=
  a <- xy2ang self facenum x y None ;;
  match a with
  | AOne (ra, dec) => ang2ipix self (PyNum ra) (PyNum dec) None
  | AArr _ => Raise (ValueError "too many values to unpack")
  end.

(** Truth value of the [ipix] argument: [None] and [0] are false. *)
Definition truthy_ipix (ipix : option Z) : bool :=
  match ipix with
  | None => false
  | Some z => negb (z =? 0)
  end.

(** [QLSC.face_number(self, ra, dec, ipix=None)], its body. *)
Definition face_number (self : QLSC) (ra dec : PyVal) (ipix : option Z)
    : Result Z :=
  let some_given := negb (is_None ra) || negb (is_None dec) in
  let all_given := negb (is_None ra) && negb (is_None dec) in
  let i := match ipix with Some i => i | None => 0 end in
  if truthy_ipix ipix && some_given then
    Raise (ValueError "Only specify 'ra','dec' OR 'ipix', not all three.")
  else if some_given && negb all_given then
    Raise (ValueError "Both parameters 'ra' and 'dec' are required when one is provided")
  else
  (if truthy_ipix ipix then
     if negb ((0 <=? i) && (i <? nbins self)) then
       Raise (ValueError "The ipix number provided is outside the range")
     else Ok tt
   else
     dec_ok <- in_closed (-90) dec 90 ;;
     if negb dec_ok then
       Raise (ValueError "The value of 'dec' must be normalized to [-90,90]")
     else
     ra_ok <- in_closed (-360) ra 360 ;;
     if negb ra_ok then
       Raise (ValueError "The value of 'ra' must be normalized to [0,360]")
     else Ok tt) ;;;
  radec <-
    (if truthy_ipix ipix then
       p <- ipix2ang self i ;;
       Ok (PyNum (fst p), PyNum (snd p))
     else Ok (ra, dec)) ;;
  match radec with
  | (PyNum r, PyNum d) => Ok (q3c_facenum (_hprm self) r d)
  | _ => Raise (TypeError "a float is required")
  end.

(** A call of [face_number]: [ra] and [dec] have no default in the
    signature, [ipix] defaults to [None]. *)
Definition face_number_call (self : QLSC) (ra dec : Arg PyVal)
    (ipix : Arg (option Z)) : Result Z :=
  match ra, dec with
  | Passed r, Passed d =>
      face_number self r d (match ipix with Omitted => None | Passed i => i end)
  | _, _ =>
      Raise (TypeError "face_number() missing required positional argument")
  end.

(** The arithmetic of [ipixcenter] on a full-resolution pixel id:
    [(v >> (2*depth) << (2*depth)) + (1 << (2 * (depth-1))) - 1]. *)
Definition center_of (depth v : Z) : Z :=
  Z.shiftl (Z.shiftr v (2 * depth)) (2 * depth)
  + Z.shiftl 1 (2 * (depth - 1)) - 1.

(** [QLSC.ipixcenter] *)
Definition ipixcenter (self : QLSC) (ra dec : Q) (depth : Z) : Result Z :=
  if negb ((1 <=? depth) && (depth <=? 30)) then
    Raise (ValueError "The depth provided is out of the range 1-30")
  else Ok (center_of depth (q3c_ang2ipix (_hprm self) ra dec)).

(** [QLSC.ipix2polygon]; what it prints is left out.  [2/self.nside]
    is evaluated after the bounds check, which no pixel id passes when
    [nside] is 0. *)
Definition ipix2polygon (self : QLSC) (ipix : option Z)
    (duplicate_endpoint : bool) : Result AngOut :=
  match ipix with
  | None => Raise (ValueError "An 'ipix' value must be specified.")
  | Some i =>
      if negb ((0 <=? i) && (i <? nbins self)) then
        Raise (ValueError "The ipix value given is out of the valid range for this scheme")
      else
        let d := (2 / inject_Z (nside self))%Q in
        fxy <- ipix2xy self i ;;
        let '(facenum, x, y) := fxy in
        let polygon :=
          if duplicate_endpoint then
            [ (x, y); (x + d, y); (x + d, y + d); (x, y + d); (x, y) ]%Q
          else
            [ (x, y); (x + d, y); (x + d, y + d); (x, y + d) ]%Q in
        let polygon :=
          if duplicate_endpoint then removelast polygon else polygon in
        xy2ang self (Some facenum) None None (Some polygon)
  end.

End QLSC.

(** ** class QLSCIndex: the point store *)

(** A row of [qlsc_table]: two REAL columns, [NULL] being [None]. *)
Definition Row : Type := (option Q * option Q)%type.

(** An [sqlite3.Connection], as far as this module uses one: whether
    [qlsc_table] exists, the rows of committed transactions, the rows of the
    open transaction, how many times [commit] ran, and whether the
    connection was closed. *)
Record Connection : Type := {
  has_table : bool;
  committed : list Row;
  pending : list Row;
  ncommits : Z;
  closed : bool
}.

(** [sqlite3.connect] on a database that does not exist yet *)
Definition fresh_connection : Connection :=
  {| has_table := false; committed := []; pending := [];
     ncommits := 0; closed := false |}.

(** The rows a statement run on the connection sees. *)
Definition visible (c : Connection) : list Row := committed c ++ pending c.

Definition closed_error : PyExc :=
  ProgrammingError "Cannot operate on a closed database.".

Definition no_table_error : PyExc :=
  OperationalError "no such table: qlsc_table".

(** [CREATE TABLE qlsc_table (ra REAL, dec REAL)] *)
Definition create_table (c : Connection) : Result Connection :=
  if closed c then Raise closed_error
  else if has_table c then
    Raise (OperationalError "table qlsc_table already exists")
  else Ok {| has_table := true; committed := committed c;
             pending := pending c; ncommits := ncommits c;
             closed := closed c |}.

(** [INSERT INTO qlsc_table (ra, dec) VALUES (?, ?)] *)
Definition execute_insert (c : Connection) (r : Row) : Result Connection :=
  if closed c then Raise closed_error
  else if negb (has_table c) then Raise no_table_error
  else Ok {| has_table := has_table c; committed := committed c;
             pending := pending c ++ [r]; ncommits := ncommits c;
             closed := closed c |}.

(** [SELECT ra, dec FROM qlsc_table] *)
Definition select_all (c : Connection) : Result (list Row) :=
  if closed c then Raise closed_error
  else if negb (has_table c) then Raise no_table_error
  else Ok (visible c).

(** [Connection.commit()] *)
Definition commit (c : Connection) : Result Connection :=
  if closed c then Raise closed_error
  else Ok {| has_table := has_table c; committed := committed c ++ pending c;
             pending := []; ncommits := ncommits c + 1;
             closed := closed c |}.

(** [Connection.rollback()] *)
Definition rollback (c : Connection) : Connection :=
  {| has_table := has_table c; committed := committed c;
     pending := []; ncommits := ncommits c; closed := closed c |}.

(** [Connection.close()]: the open transaction is lost. *)
Definition close (c : Connection) : Connection :=
  {| has_table := has_table c; committed := committed c;
     pending := []; ncommits := ncommits c; closed := true |}.

(** What [_data_source] may hold. *)
Inductive DataSource : Type :=
| DSConnection (c : Connection)
| DSArray (rows : list (Q * Q))
| DSTable (rows : list (Q * Q))
| DSFrame (rows : list (Q * Q)).

(** What may be assigned to the [data_source] property. *)
Inductive NewValue : Type :=
| NVNone
| NVStr (s : string)
| NVPath (s : string)
| NVConnection (c : Connection)
| NVArray (rows : list (Q * Q))
| NVTable (rows : list (Q * Q))
| NVFrame (rows : list (Q * Q)).

(** The host of the module: the file system and SQLite behind
    [os.path.exists], [urlparse] and [sqlite3.connect], and which optional
    packages could be imported. *)
Class Host : Type := {
  astropy_available : bool;
  pandas_available : bool;
  os_path_exists : string -> bool;
  urlparse_path : string -> string;
  (** [sqlite3.connect(name, uri=True)]: [None] is [OperationalError] *)
  sqlite3_connect : string -> option Connection
}.

Section QLSCIndex.

Context {K : Q3C} {H : Host}.

(** Names bound at module level by the [import] statements and the class
    definitions.  [import numpy as np] binds [np] only. *)
Definition module_globals : list string :=
  [ "os"; "math"; "pathlib"; "sqlite3"; "contextlib"; "Iterable"; "Tuple";
    "urlparse"; "pow"; "sin"; "deg2rad"; "collections"; "np";
    "astropy_available"; "pandas_available"; "_q3c_wrapper";
    "radial_query_it"; "sindist"; "_normalize_ang"; "QLSC"; "QLSCIndex" ]%string
  ++ (if astropy_available then ["astropy"%string] else [])
  ++ (if pandas_available then ["pandas"%string] else []).

(** Evaluation of a global name: an unbound one raises [NameError]. *)
Definition lookup_global (name : string) : Result unit :=
  if existsb (String.eqb name) module_globals then Ok tt
  else Raise (NameError name).

(** The SQL of the module is written with [ra_key], [dec_key] and
    [database_tablename]; they keep the values given in [__init__]. *)
Record QLSCIndex : Type := {
  qlsc : QLSC;
  _data_source : DataSource
}.

Definition set_source (self : QLSCIndex) (d : DataSource) : QLSCIndex :=
  {| qlsc := qlsc self; _data_source := d |}.

Definition not_a_connection : PyExc :=
  AttributeError "object is not an sqlite3.Connection".

(** [QLSCIndex._init_sqlite_db] *)
Definition _init_sqlite_db (self : QLSCIndex) : Result unit * QLSCIndex :=
  match _data_source self with
  | DSConnection c =>
      match create_table c with
      | Ok c' => (Ok tt, set_source self (DSConnection c'))
      | Raise e => (Raise e, self)
      end
  | _ => (Raise (Exception "_init_sqlite_db called on an object that isn't an SQLite database connection!"), self)
  end.

(** [QLSCIndex.__init__] *)
Definition QLSCIndex_init (q : QLSC) : Result unit * QLSCIndex :=
  _init_sqlite_db {| qlsc := q; _data_source := DSConnection fresh_connection |}.

(** Getter of the [data_source] property *)
Definition data_source (self : QLSCIndex) : DataSource := _data_source self.

(** Setter of the [data_source] property *)
Definition data_source_set (self : QLSCIndex) (new_value : NewValue)
    : Result unit * QLSCIndex :=
  (* if isinstance(new_value, sqlite3.Connection): self._data_source.close() *)
  match
    match new_value, _data_source self with
    | NVConnection _, DSConnection c =>
        Ok (set_source self (DSConnection (close c)))
    | NVConnection _, _ =>
        Raise (AttributeError "object has no attribute 'close'")
    | _, _ => Ok self
    end
  with
  | Raise e => (Raise e, self)
  | Ok self1 =>
  match new_value with
  | NVPath _ =>
      (Raise (AttributeError "'PosixPath' object has no attribute 'startswith'"), self1)
  | NVStr s =>
      let is_uri := String.prefix "file:" s in
      if String.eqb s ":memory:" then
        (Ok tt, set_source self1 (DSConnection fresh_connection))
      else
        let filepath := if is_uri then urlparse_path s else s in
        let new_database := negb (os_path_exists filepath) in
        match sqlite3_connect s with
        | None =>
            if new_database then
              (Raise (Exception "Unable to create database at specified path."), self1)
            else
              (Raise (Exception "Found file at path 'new_value', but unable to open."), self1)
        | Some c =>
            let self2 := set_source self1 (DSConnection c) in
            if new_database then _init_sqlite_db self2 else (Ok tt, self2)
        end
  | _ =>
      (* elif isinstance(new_value, numpy.ndarray): *)
      match lookup_global "numpy" with
      | Raise e => (Raise e, self1)
      | Ok _ =>
          match new_value with
          | NVArray rows => (Ok tt, set_source self1 (DSArray rows))
          | NVTable rows =>
              if astropy_available then
                (Raise (NotImplementedError "not tested"),
                 set_source self1 (DSTable rows))
              else (Ok tt, self1)
          | NVFrame _ =>
              if pandas_available then
                (Raise (NotImplementedError "not tested"), self1)
              else (Ok tt, self1)
          | NVNone =>
              (Raise (ValueError "The data source cannot be set to 'None'."), self1)
          | _ => (Ok tt, self1)
          end
      end
  end
  end.

(** The [with self.data_source:] block around a body that ran to [r]
    and left the connection as [c]: [commit] when the body returned,
    [rollback] when it raised. *)
Definition with_transaction (r : Result unit) (c : Connection)
    : Result unit * Connection :=
  match r with
  | Ok _ =>
      match commit c with
      | Ok c' => (Ok tt, c')
      | Raise e => (Raise e, c)
      end
  | Raise e => (Raise e, rollback c)
  end.

(** [QLSCIndex.add_point(ra=None, dec=None)].  The table has no
    constraint, so [sqlite3.IntegrityError] is never raised. *)
Definition add_point (self : QLSCIndex) (ra dec : option Q)
    : Result unit * QLSCIndex :=
  match data_source self with
  | DSConnection c =>
      let '(r, c') :=
        match execute_insert c (ra, dec) with
        | Ok c1 => with_transaction (Ok tt) c1
        | Raise e => with_transaction (Raise e) c
        end in
      (r, set_source self (DSConnection c'))
  | _ => (Raise not_a_connection, self)
  end.

(** Truth value of an optional sequence: [None] and the empty sequence
    are false. *)
Definition truthy {A : Type} (l : option (list A)) : bool :=
  match l with
  | Some (_ :: _) => true
  | _ => false
  end.

(** One by one, the rows that the body of a [for] loop of [add_points]
    inserts; evaluating the row may raise ([dec[i]] past the end of [dec]). *)
Definition indexed_rows (ra : list Q) (dec : option (list Q))
    : list (Result Row) :=
  map (fun i =>
         match dec with
         | None => Raise (TypeError "'NoneType' object is not subscriptable")
         | Some ds =>
             match nth_error ra i, nth_error ds i with
             | Some r, Some d => Ok (Some r, Some d)
             | _, _ => Raise IndexError
             end
         end)
      (seq 0 (List.length ra)).

Definition tuple_rows (points : list (Q * Q)) : list (Result Row) :=
  map (fun p => Ok (Some (fst p), Some (snd p))) points.

(** The body shared by the two [for] loops of [add_points], run over the
    rows still to insert:
    [cursor.execute(query, row); count += 1;
     if count > 50000: self.data_source.commit(); count = 0]. *)
Fixpoint insert_loop (c : Connection) (count : Z) (rows : list (Result Row))
    : Result unit * Connection :=
  match rows with
  | [] => (Ok tt, c)
  | row :: rest =>
      match row with
      | Raise e => (Raise e, c)
      | Ok r =>
          match execute_insert c r with
          | Raise e => (Raise e, c)
          | Ok c1 =>
              let count := count + 1 in
              if count >? 50000 then
                match commit c1 with
                | Raise e => (Raise e, c1)
                | Ok c2 => insert_loop c2 0 rest
                end
              else insert_loop c1 count rest
          end
      end
  end.

(** [QLSCIndex.add_points(ra=None, dec=None, points=None)] *)
Definition add_points (self : QLSCIndex) (ra dec : option (list Q))
    (points : option (list (Q * Q))) : Result unit * QLSCIndex :=
  if negb (truthy ra || truthy dec || truthy points) then
    (Raise (ValueError "'ra','dec' OR 'points' must be specified."), self)
  else if truthy ra && truthy dec && truthy points then
    (Raise (ValueError "Only 'ra','dec' OR 'points' can be specified."), self)
  else if match points with None => negb (truthy ra && truthy dec) | Some _ => false end then
    (Raise (ValueError "If 'ra' or dec' is given, then other parameter must also be provided."), self)
  else
  match data_source self with
  | DSConnection c =>
      let rows :=
        if truthy ra then
          indexed_rows (match ra with Some l => l | None => [] end) dec
        else
          tuple_rows (match points with Some l => l | None => [] end) in
      let '(r, c1) := insert_loop c 0 rows in
      let '(r', c2) := with_transaction r c1 in
      (r', set_source self (DSConnection c2))
  | _ => (Raise not_a_connection, self)
  end.

(** property [number_of_points] *)
Definition number_of_points (self : QLSCIndex) : Result Z :=
  match data_source self with
  | DSConnection c =>
      rows <- select_all c ;;
      Ok (Z.of_nat (List.length rows))
  | _ => Raise (NotImplementedError "")
  end.

(** [math.pow(x, 2)] *)
Definition pow (x : Q) (n : Z) : Q := Qpower x n.

Definition cell (v : option Q) : PyVal :=
  match v with
  | Some q => PyNum q
  | None => PyNone
  end.

(** [QLSCIndex._radial_match] *)
Definition _radial_match (self : QLSCIndex) (ra dec : option Q)
    (center_ra center_dec radius : Q) : Result bool :=
  o <- ang2ipix (qlsc self) (cell ra) (cell dec) None ;;
  let hprm := _hprm (qlsc self) in
  match o, ra, dec with
  | OInt ipix, Some ra, Some dec =>
    Ok ((
    ((ipix >=? radial_query_it hprm center_ra center_dec radius 0 1) && (ipix <? radial_query_it hprm center_ra center_dec radius 1 1)) ||
    ((ipix >=? radial_query_it hprm center_ra center_dec radius 2 1) && (ipix <? radial_query_it hprm center_ra center_dec radius 3 1)) ||
    ((ipix >=? radial_query_it hprm center_ra center_dec radius 4 1) && (ipix <? radial_query_it hprm center_ra center_dec radius 5 1)) ||
    ((ipix >=? radial_query_it hprm center_ra center_dec radius 6 1) && (ipix <? radial_query_it hprm center_ra center_dec radius 7 1)) ||
    ((ipix >=? radial_query_it hprm center_ra center_dec radius 8 1) && (ipix <? radial_query_it hprm center_ra center_dec radius 9 1)) ||
    ((ipix >=? radial_query_it hprm center_ra center_dec radius 10 1) && (ipix <? radial_query_it hprm center_ra center_dec radius 11 1)) ||
    ((ipix >=? radial_query_it hprm center_ra center_dec radius 12 1) && (ipix <? radial_query_it hprm center_ra center_dec radius 13 1)) ||
    ((ipix >=? radial_query_it hprm center_ra center_dec radius 14 1) && (ipix <? radial_query_it hprm center_ra center_dec radius 15 1)) ||
    ((ipix >=? radial_query_it hprm center_ra center_dec radius 16 1) && (ipix <? radial_query_it hprm center_ra center_dec radius 17 1)) ||
    ((ipix >=? radial_query_it hprm center_ra center_dec radius 18 1) && (ipix <? radial_query_it hprm center_ra center_dec radius 19 1)) ||
    ((ipix >=? radial_query_it hprm center_ra center_dec radius 20 1) && (ipix <? radial_query_it hprm center_ra center_dec radius 21 1)) ||
    ((ipix >=? radial_query_it hprm center_ra center_dec radius 22 1) && (ipix <? radial_query_it hprm center_ra center_dec radius 23 1)) ||
    ((ipix >=? radial_query_it hprm center_ra center_dec radius 24 1) && (ipix <? radial_query_it hprm center_ra center_dec radius 25 1)) ||
    ((ipix >=? radial_query_it hprm center_ra center_dec radius 26 1) && (ipix <? radial_query_it hprm center_ra center_dec radius 27 1)) ||
    ((ipix >=? radial_query_it hprm center_ra center_dec radius 28 1) && (ipix <? radial_query_it hprm center_ra center_dec radius 29 1)) ||
    ((ipix >=? radial_query_it hprm center_ra center_dec radius 30 1) && (ipix <? radial_query_it hprm center_ra center_dec radius 31 1)) ||
    ((ipix >=? radial_query_it hprm center_ra center_dec radius 32 1) && (ipix <? radial_query_it hprm center_ra center_dec radius 33 1)) ||
    ((ipix >=? radial_query_it hprm center_ra center_dec radius 34 1) && (ipix <? radial_query_it hprm center_ra center_dec radius 35 1)) ||
    ((ipix >=? radial_query_it hprm center_ra center_dec radius 36 1) && (ipix <? radial_query_it hprm center_ra center_dec radius 37 1)) ||
    ((ipix >=? radial_query_it hprm center_ra center_dec radius 38 1) && (ipix <? radial_query_it hprm center_ra center_dec radius 39 1)) ||
    ((ipix >=? radial_query_it hprm center_ra center_dec radius 40 1) && (ipix <? radial_query_it hprm center_ra center_dec radius 41 1)) ||
    ((ipix >=? radial_query_it hprm center_ra center_dec radius 42 1) && (ipix <? radial_query_it hprm center_ra center_dec radius 43 1)) ||
    ((ipix >=? radial_query_it hprm center_ra center_dec radius 44 1) && (ipix <? radial_query_it hprm center_ra center_dec radius 45 1)) ||
    ((ipix >=? radial_query_it hprm center_ra center_dec radius 46 1) && (ipix <? radial_query_it hprm center_ra center_dec radius 47 1)) ||
    ((ipix >=? radial_query_it hprm center_ra center_dec radius 48 1) && (ipix <? radial_query_it hprm center_ra center_dec radius 49 1)) ||
    ((ipix >=? radial_query_it hprm center_ra center_dec radius 50 1) && (ipix <? radial_query_it hprm center_ra center_dec radius 51 1)) ||
    ((ipix >=? radial_query_it hprm center_ra center_dec radius 52 1) && (ipix <? radial_query_it hprm center_ra center_dec radius 53 1)) ||
    ((ipix >=? radial_query_it hprm center_ra center_dec radius 54 1) && (ipix <? radial_query_it hprm center_ra center_dec radius 55 1)) ||
    ((ipix >=? radial_query_it hprm center_ra center_dec radius 56 1) && (ipix <? radial_query_it hprm center_ra center_dec radius 57 1)) ||
    ((ipix >=? radial_query_it hprm center_ra center_dec radius 58 1) && (ipix <? radial_query_it hprm center_ra center_dec radius 59 1)) ||
    ((ipix >=? radial_query_it hprm center_ra center_dec radius 60 1) && (ipix <? radial_query_it hprm center_ra center_dec radius 61 1)) ||
    ((ipix >=? radial_query_it hprm center_ra center_dec radius 62 1) && (ipix <? radial_query_it hprm center_ra center_dec radius 63 1)) ||
    ((ipix >=? radial_query_it hprm center_ra center_dec radius 64 1) && (ipix <? radial_query_it hprm center_ra center_dec radius 65 1)) ||
    ((ipix >=? radial_query_it hprm center_ra center_dec radius 66 1) && (ipix <? radial_query_it hprm center_ra center_dec radius 67 1)) ||
    ((ipix >=? radial_query_it hprm center_ra center_dec radius 68 1) && (ipix <? radial_query_it hprm center_ra center_dec radius 69 1)) ||
    ((ipix >=? radial_query_it hprm center_ra center_dec radius 70 1) && (ipix <? radial_query_it hprm center_ra center_dec radius 71 1)) ||
    ((ipix >=? radial_query_it hprm center_ra center_dec radius 72 1) && (ipix <? radial_query_it hprm center_ra center_dec radius 73 1)) ||
    ((ipix >=? radial_query_it hprm center_ra center_dec radius 74 1) && (ipix <? radial_query_it hprm center_ra center_dec radius 75 1)) ||
    ((ipix >=? radial_query_it hprm center_ra center_dec radius 76 1) && (ipix <? radial_query_it hprm center_ra center_dec radius 77 1)) ||
    ((ipix >=? radial_query_it hprm center_ra center_dec radius 78 1) && (ipix <? radial_query_it hprm center_ra center_dec radius 79 1)) ||
    ((ipix >=? radial_query_it hprm center_ra center_dec radius 80 1) && (ipix <? radial_query_it hprm center_ra center_dec radius 81 1)) ||
    ((ipix >=? radial_query_it hprm center_ra center_dec radius 82 1) && (ipix <? radial_query_it hprm center_ra center_dec radius 83 1)) ||
    ((ipix >=? radial_query_it hprm center_ra center_dec radius 84 1) && (ipix <? radial_query_it hprm center_ra center_dec radius 85 1)) ||
    ((ipix >=? radial_query_it hprm center_ra center_dec radius 86 1) && (ipix <? radial_query_it hprm center_ra center_dec radius 87 1)) ||
    ((ipix >=? radial_query_it hprm center_ra center_dec radius 88 1) && (ipix <? radial_query_it hprm center_ra center_dec radius 89 1)) ||
    ((ipix >=? radial_query_it hprm center_ra center_dec radius 90 1) && (ipix <? radial_query_it hprm center_ra center_dec radius 91 1)) ||
    ((ipix >=? radial_query_it hprm center_ra center_dec radius 92 1) && (ipix <? radial_query_it hprm center_ra center_dec radius 93 1)) ||
    ((ipix >=? radial_query_it hprm center_ra center_dec radius 94 1) && (ipix <? radial_query_it hprm center_ra center_dec radius 95 1)) ||
    ((ipix >=? radial_query_it hprm center_ra center_dec radius 96 1) && (ipix <? radial_query_it hprm center_ra center_dec radius 97 1)) ||
    ((ipix >=? radial_query_it hprm center_ra center_dec radius 98 1) && (ipix <? radial_query_it hprm center_ra center_dec radius 99 1)) ||
    ((ipix >=? radial_query_it hprm center_ra center_dec radius 0 0) && (ipix <? radial_query_it hprm center_ra center_dec radius 1 0)) ||
    ((ipix >=? radial_query_it hprm center_ra center_dec radius 2 0) && (ipix <? radial_query_it hprm center_ra center_dec radius 3 0)) ||
    ((ipix >=? radial_query_it hprm center_ra center_dec radius 4 0) && (ipix <? radial_query_it hprm center_ra center_dec radius 5 0)) ||
    ((ipix >=? radial_query_it hprm center_ra center_dec radius 6 0) && (ipix <? radial_query_it hprm center_ra center_dec radius 7 0)) ||
    ((ipix >=? radial_query_it hprm center_ra center_dec radius 8 0) && (ipix <? radial_query_it hprm center_ra center_dec radius 9 0)) ||
    ((ipix >=? radial_query_it hprm center_ra center_dec radius 10 0) && (ipix <? radial_query_it hprm center_ra center_dec radius 11 0)) ||
    ((ipix >=? radial_query_it hprm center_ra center_dec radius 12 0) && (ipix <? radial_query_it hprm center_ra center_dec radius 13 0)) ||
    ((ipix >=? radial_query_it hprm center_ra center_dec radius 14 0) && (ipix <? radial_query_it hprm center_ra center_dec radius 15 0)) ||
    ((ipix >=? radial_query_it hprm center_ra center_dec radius 16 0) && (ipix <? radial_query_it hprm center_ra center_dec radius 17 0)) ||
    ((ipix >=? radial_query_it hprm center_ra center_dec radius 18 0) && (ipix <? radial_query_it hprm center_ra center_dec radius 19 0)) ||
    ((ipix >=? radial_query_it hprm center_ra center_dec radius 20 0) && (ipix <? radial_query_it hprm center_ra center_dec radius 21 0)) ||
    ((ipix >=? radial_query_it hprm center_ra center_dec radius 22 0) && (ipix <? radial_query_it hprm center_ra center_dec radius 23 0)) ||
    ((ipix >=? radial_query_it hprm center_ra center_dec radius 24 0) && (ipix <? radial_query_it hprm center_ra center_dec radius 25 0)) ||
    ((ipix >=? radial_query_it hprm center_ra center_dec radius 26 0) && (ipix <? radial_query_it hprm center_ra center_dec radius 27 0)) ||
    ((ipix >=? radial_query_it hprm center_ra center_dec radius 28 0) && (ipix <? radial_query_it hprm center_ra center_dec radius 29 0)) ||
    ((ipix >=? radial_query_it hprm center_ra center_dec radius 30 0) && (ipix <? radial_query_it hprm center_ra center_dec radius 31 0)) ||
    ((ipix >=? radial_query_it hprm center_ra center_dec radius 32 0) && (ipix <? radial_query_it hprm center_ra center_dec radius 33 0)) ||
    ((ipix >=? radial_query_it hprm center_ra center_dec radius 34 0) && (ipix <? radial_query_it hprm center_ra center_dec radius 35 0)) ||
    ((ipix >=? radial_query_it hprm center_ra center_dec radius 36 0) && (ipix <? radial_query_it hprm center_ra center_dec radius 37 0)) ||
    ((ipix >=? radial_query_it hprm center_ra center_dec radius 38 0) && (ipix <? radial_query_it hprm center_ra center_dec radius 39 0)) ||
    ((ipix >=? radial_query_it hprm center_ra center_dec radius 40 0) && (ipix <? radial_query_it hprm center_ra center_dec radius 41 0)) ||
    ((ipix >=? radial_query_it hprm center_ra center_dec radius 42 0) && (ipix <? radial_query_it hprm center_ra center_dec radius 43 0)) ||
    ((ipix >=? radial_query_it hprm center_ra center_dec radius 44 0) && (ipix <? radial_query_it hprm center_ra center_dec radius 45 0)) ||
    ((ipix >=? radial_query_it hprm center_ra center_dec radius 46 0) && (ipix <? radial_query_it hprm center_ra center_dec radius 47 0)) ||
    ((ipix >=? radial_query_it hprm center_ra center_dec radius 48 0) && (ipix <? radial_query_it hprm center_ra center_dec radius 49 0)) ||
    ((ipix >=? radial_query_it hprm center_ra center_dec radius 50 0) && (ipix <? radial_query_it hprm center_ra center_dec radius 51 0)) ||
    ((ipix >=? radial_query_it hprm center_ra center_dec radius 52 0) && (ipix <? radial_query_it hprm center_ra center_dec radius 53 0)) ||
    ((ipix >=? radial_query_it hprm center_ra center_dec radius 54 0) && (ipix <? radial_query_it hprm center_ra center_dec radius 55 0)) ||
    ((ipix >=? radial_query_it hprm center_ra center_dec radius 56 0) && (ipix <? radial_query_it hprm center_ra center_dec radius 57 0)) ||
    ((ipix >=? radial_query_it hprm center_ra center_dec radius 58 0) && (ipix <? radial_query_it hprm center_ra center_dec radius 59 0)) ||
    ((ipix >=? radial_query_it hprm center_ra center_dec radius 60 0) && (ipix <? radial_query_it hprm center_ra center_dec radius 61 0)) ||
    ((ipix >=? radial_query_it hprm center_ra center_dec radius 62 0) && (ipix <? radial_query_it hprm center_ra center_dec radius 63 0)) ||
    ((ipix >=? radial_query_it hprm center_ra center_dec radius 64 0) && (ipix <? radial_query_it hprm center_ra center_dec radius 65 0)) ||
    ((ipix >=? radial_query_it hprm center_ra center_dec radius 66 0) && (ipix <? radial_query_it hprm center_ra center_dec radius 67 0)) ||
    ((ipix >=? radial_query_it hprm center_ra center_dec radius 68 0) && (ipix <? radial_query_it hprm center_ra center_dec radius 69 0)) ||
    ((ipix >=? radial_query_it hprm center_ra center_dec radius 70 0) && (ipix <? radial_query_it hprm center_ra center_dec radius 71 0)) ||
    ((ipix >=? radial_query_it hprm center_ra center_dec radius 72 0) && (ipix <? radial_query_it hprm center_ra center_dec radius 73 0)) ||
    ((ipix >=? radial_query_it hprm center_ra center_dec radius 74 0) && (ipix <? radial_query_it hprm center_ra center_dec radius 75 0)) ||
    ((ipix >=? radial_query_it hprm center_ra center_dec radius 76 0) && (ipix <? radial_query_it hprm center_ra center_dec radius 77 0)) ||
    ((ipix >=? radial_query_it hprm center_ra center_dec radius 78 0) && (ipix <? radial_query_it hprm center_ra center_dec radius 79 0)) ||
    ((ipix >=? radial_query_it hprm center_ra center_dec radius 80 0) && (ipix <? radial_query_it hprm center_ra center_dec radius 81 0)) ||
    ((ipix >=? radial_query_it hprm center_ra center_dec radius 82 0) && (ipix <? radial_query_it hprm center_ra center_dec radius 83 0)) ||
    ((ipix >=? radial_query_it hprm center_ra center_dec radius 84 0) && (ipix <? radial_query_it hprm center_ra center_dec radius 85 0)) ||
    ((ipix >=? radial_query_it hprm center_ra center_dec radius 86 0) && (ipix <? radial_query_it hprm center_ra center_dec radius 87 0)) ||
    ((ipix >=? radial_query_it hprm center_ra center_dec radius 88 0) && (ipix <? radial_query_it hprm center_ra center_dec radius 89 0)) ||
    ((ipix >=? radial_query_it hprm center_ra center_dec radius 90 0) && (ipix <? radial_query_it hprm center_ra center_dec radius 91 0)) ||
    ((ipix >=? radial_query_it hprm center_ra center_dec radius 92 0) && (ipix <? radial_query_it hprm center_ra center_dec radius 93 0)) ||
    ((ipix >=? radial_query_it hprm center_ra center_dec radius 94 0) && (ipix <? radial_query_it hprm center_ra center_dec radius 95 0)) ||
    ((ipix >=? radial_query_it hprm center_ra center_dec radius 96 0) && (ipix <? radial_query_it hprm center_ra center_dec radius 97 0)) ||
    ((ipix >=? radial_query_it hprm center_ra center_dec radius 98 0) && (ipix <? radial_query_it hprm center_ra center_dec radius 99 0))
    ) && Qlt_bool (sindist ra dec center_ra center_dec)
                  (pow (sin (deg2rad radius / 2)) 2))
  | _, _, _ => Raise (TypeError "a float is required")
  end.

(** The [for] loop of [radial_query] over the rows of the cursor *)
Fixpoint scan (self : QLSCIndex) (rows : list Row)
    (center_ra center_dec radius : Q) (matches : list Row)
    : Result (list Row) :=
  match rows with
  | [] => Ok matches
  | (ra, dec) :: rest =>
      m <- _radial_match self ra dec center_ra center_dec radius ;;
      scan self rest center_ra center_dec radius
           (if m then matches ++ [(ra, dec)] else matches)
  end.

(** [QLSCIndex.radial_query] *)
Definition radial_query (self : QLSCIndex) (center_ra center_dec radius : Q)
    : Result (list Row) :=
  let matches := [] in
  match data_source self with
  | DSConnection c =>
      rows <- select_all c ;;
      scan self rows center_ra center_dec radius matches
  | DSArray rows | DSTable rows | DSFrame rows =>
      (* elif isinstance(self.data_source, numpy.ndarray): *)
      lookup_global "numpy" ;;;
      (* for idx in range(len(data)): ra = data[ra_key][i] *)
      match rows with
      | [] => Ok matches
      | _ :: _ => Raise (NameError "ra_key")
      end
  end.

End QLSCIndex.

(** ** What the properties are stated with *)

Section Contracts.

Context {K : Q3C}.

(** Modelled from the spec: the C function behind [_q3c_wrapper.ipix2ang]
    is missing from the Python source.  By the spec's data model the
    representative position of a pixel is a point of the sphere: [ra] in
    [0,360] and [dec] in [-90,90]. *)
Definition kernel_angles_in_range (self : QLSC) : Prop :=
  forall ipix, 0 <= ipix < nbins self ->
    Qin_closed 0 (fst (q3c_ipix2ang (_hprm self) ipix)) 360 = true
    /\ Qin_closed (-90) (snd (q3c_ipix2ang (_hprm self) ipix)) 90 = true.

(** Modelled from the spec: the C functions behind
    [_q3c_wrapper.ang2ipix] and [_q3c_wrapper.ipix2ang] are missing from
    the Python source.  The spec guarantees of them that the pixel of the
    representative position of a pixel is that pixel. *)
Definition kernel_round_trip (self : QLSC) : Prop :=
  forall ipix, 0 <= ipix < nbins self ->
    q3c_ang2ipix (_hprm self)
      (fst (q3c_ipix2ang (_hprm self) ipix))
      (snd (q3c_ipix2ang (_hprm self) ipix)) = ipix.

(** [ang2ipix] applied to the pair that [ipix2ang(ipix)] returns *)
Definition ipix_round_trip (self : QLSC) (ipix : Z) : Result PixOut :=
  p <- ipix2ang self ipix ;;
  ang2ipix self (PyNum (fst p)) (PyNum (snd p)) None.

(** Modelled from the spec: the C function behind [_q3c_wrapper.facenum]
    is missing from the Python source.  By the spec it answers with one of
    the six faces, 0 to 5. *)
Definition kernel_face_in_range (self : QLSC) : Prop :=
  forall ra dec, 0 <= q3c_facenum (_hprm self) ra dec <= 5.

(** A connection that statements can run on: open, with its table. *)
Definition usable (c : Connection) : Prop :=
  closed c = false /\ has_table c = true.

(** The rows of a list of [(ra, dec)] pairs *)
Definition rows_of (points : list (Q * Q)) : list Row :=
  map (fun p => (Some (fst p), Some (snd p))) points.

(** The two ways to hand points to [add_points]: a sequence of pairs, or
    two sequences of equal length. *)
Definition bulk_call (ra dec : option (list Q))
    (points : option (list (Q * Q))) (pts : list (Q * Q)) : Prop :=
  (ra = None /\ dec = None /\ points = Some pts)
  \/ (exists r d, ra = Some r /\ dec = Some d /\ points = None
                  /\ List.length r = List.length d /\ pts = combine r d).

(** The [k]-th half-open interval [lo, hi) of a zone: boundaries [2k]
    and [2k+1] of the kernel's decomposition of the disc. *)
Definition kernel_interval (hprm : Hprm) (center_ra center_dec radius : Q)
    (zone : Z) (k : nat) : Z * Z :=
  (radial_query_it hprm center_ra center_dec radius (2 * Z.of_nat k) zone,
   radial_query_it hprm center_ra center_dec radius (2 * Z.of_nat k + 1) zone).

(** The 50 intervals of a zone *)
Definition zone_intervals (hprm : Hprm) (center_ra center_dec radius : Q)
    (zone : Z) : list (Z * Z) :=
  map (kernel_interval hprm center_ra center_dec radius zone) (seq 0 50).

(** Membership in a half-open interval *)
Definition in_interval (ipix : Z) (iv : Z * Z) : bool :=
  (ipix >=? fst iv) && (ipix <? snd iv).

(** Membership in the union of the intervals of zone 1 and of zone 0 *)
Definition in_cover (hprm : Hprm) (center_ra center_dec radius : Q)
    (ipix : Z) : bool :=
  existsb (in_interval ipix)
    (zone_intervals hprm center_ra center_dec radius 1
     ++ zone_intervals hprm center_ra center_dec radius 0).

(** The refinement test: the chord-distance metric is strictly below
    [sin^2(radius_in_radians / 2)]. *)
Definition within_radius (ra dec center_ra center_dec radius : Q) : bool :=
  Qlt_bool (sindist ra dec center_ra center_dec)
           (pow (sin (deg2rad radius / 2)) 2).

(** The pixel id that [ang2ipix(ra, dec)] returns for two numbers *)
Definition scalar_ipix (self : QLSC) (ra dec : Q) : Z :=
  match ang2ipix self (PyNum ra) (PyNum dec) None with
  | Ok (OInt ipix) => ipix
  | _ => 0
  end.

(** The points that the query is said to return: in the cover, and
    within the radius. *)
Definition selected (self : QLSC) (center_ra center_dec radius : Q)
    (p : Q * Q) : bool :=
  in_cover (_hprm self) center_ra center_dec radius
    (scalar_ipix self (fst p) (snd p))
  && within_radius (fst p) (snd p) center_ra center_dec radius.

End Contracts.

(** ** A stand-in kernel

    A small executable kernel, used to run the wrappers on concrete inputs.
    A handle is the [nside] it was created with; pixels are numbered along
    right ascension, [nbins] equal slices of the circle. *)

Definition standin_nbins (h : Z) : Q := inject_Z (h ^ 2 * 6).

Definition standin_ang2ipix (h : Z) (ra dec : Q) : Z :=
  Qfloor (ra * standin_nbins h / 360).

Definition standin_clamp (lo hi x : Q) : Q :=
  if Qle_bool x lo then lo else if Qle_bool hi x then hi else x.

#[export] Instance standin_kernel : Q3C := {|
  Hprm := Z;
  init_q3c := fun n => Some n;
  q3c_nside := fun h => h;
  q3c_ang2ipix := standin_ang2ipix;
  q3c_ang2ipix_seq := fun h ras decs =>
    Ok (OArr (map (fun p => standin_ang2ipix h (fst p) (snd p))
                  (combine ras decs)));
  q3c_ipix2ang := fun h i => ((inject_Z i * 360 / standin_nbins h)%Q, 0%Q);
  q3c_ipix2xy := fun h i => (i / h ^ 2, (-1)%Q, (-1)%Q);
  q3c_xy2ang := fun x y f => ((inject_Z f * 60 + (x + 1) * 30)%Q, (y * 45)%Q);
  q3c_facenum := fun h ra dec => Z.max 0 (Z.min 5 (Qfloor (ra / 60)));
  radial_query_it := fun h cra cdec r k zone =>
    if (zone =? 1) && (k =? 0) then standin_ang2ipix h (cra - r) 0
    else if (zone =? 1) && (k =? 1) then standin_ang2ipix h (cra + r) 0 + 1
    else 0;
  sindist := fun ra dec cra cdec =>
    ((ra - cra) * (ra - cra) + (dec - cdec) * (dec - cdec))%Q;
  _normalize_ang := fun p =>
    (standin_clamp 0 360 (fst p), standin_clamp (-90) 90 (snd p));
  sin := fun x => x;
  deg2rad := fun x => x
|}.

#[export] Instance standin_host : Host := {|
  astropy_available := false;
  pandas_available := false;
  os_path_exists := fun _ => false;
  urlparse_path := fun s => s;
  sqlite3_connect := fun _ => Some fresh_connection
|}.

(** [QLSC(bin_level=0)] on the stand-in kernel: [nside = 1], six pixels. *)
Definition standin_qlsc : QLSC := {| bin_level := 0; _hprm := 1 |}.

(** An open connection whose table holds the given rows, all committed. *)
Definition connection_with (rows : list Row) : Connection :=
  {| has_table := true; committed := rows; pending := [];
     ncommits := 0; closed := false |}.

Definition standin_index (rows : list Row) : QLSCIndex :=
  {| qlsc := standin_qlsc; _data_source := DSConnection (connection_with rows) |}.

(** [n] points at the origin *)
Definition origin_points (n : Z) : list (Q * Q) :=
  repeat (0%Q, 0%Q) (Z.to_nat n).

(** ** Further methods and notions *)

(** The dictionary that [_q3c_wrapper.ang2ipix_xy] returns, keys
    [facenum], [ipix], [x] and [y]. *)
Record IpixXY : Type := {
  xy_facenum : Z;
  xy_ipix : Z;
  xy_x : Q;
  xy_y : Q
}.

Section MoreOfQLSC.

Context {K : Q3C}.

(** [_q3c_wrapper.ang2ipix_xy], one more function of the native kernel *)
Variable q3c_ang2ipix_xy : Hprm -> Q -> Q -> IpixXY.

(** [QLSC.ang2ipix_xy]; [points] is not looked at. *)
Definition ang2ipix_xy (self : QLSC) (ra dec : PyVal)
    (points : option (list (Q * Q))) : Result IpixXY :=
  dec_ok <- in_closed (-90) dec 90 ;;
  if negb dec_ok then
    Raise (ValueError "Values of 'dec' must be in the range [-90,90]")
  else
    match ra, dec with
    | PyNum r, PyNum d => Ok (q3c_ang2ipix_xy (_hprm self) r d)
    | _, _ => Raise (TypeError "a float is required")
    end.

(** Modelled from the spec: the C functions behind [init_q3c] and
    [_q3c_wrapper.nside] are missing from the Python source.  By the spec
    [nside(handle)] is the [nside] the handle was created with. *)
Definition kernel_keeps_nside : Prop :=
  forall n h, init_q3c n = Some h -> q3c_nside h = n.

End MoreOfQLSC.

(** A row with a [NULL] in it *)
Definition has_null (r : Row) : bool :=
  match r with
  | (Some _, Some _) => false
  | _ => true
  end.

(** [isinstance(d, sqlite3.Connection)] *)
Definition is_connection (d : DataSource) : bool :=
  match d with
  | DSConnection _ => true
  | _ => false
  end.

(** * Properties *)

(** ** Construction *)

Section Construction.

Context {K : Q3C} {H : Host}.

(** [QLSCIndex(qlsc)] gives an index on an empty in-memory table that
    statements can run on. *)
Lemma QLSCIndex_init_usable (q : QLSC) :
  exists c,
    QLSCIndex_init q = (Ok tt, {| qlsc := q; _data_source := DSConnection c |})
    /\ usable c /\ visible c = [] /\ ncommits c = 0.
Proof.
  eexists. split; [reflexivity |]. repeat split.
Qed.

End Construction.

(** On the stand-in kernel, [QLSC(bin_level=0)] and the index built on it
    are the objects used in the examples below. *)
Example standin_objects :
  QLSC_init 0 = Ok standin_qlsc
  /\ nside standin_qlsc = 1 /\ nbins standin_qlsc = 6
  /\ QLSCIndex_init standin_qlsc = (Ok tt, standin_index []).
Proof.
  repeat split.
Qed.

(** ** Numbers *)

Lemma Qle_bool_false_lt (x y : Q) : Qle_bool x y = false -> (y < x)%Q.
Proof.
  intros E. apply Qnot_le_lt. intros L.
  apply Qle_bool_iff in L. congruence.
Qed.

Lemma Qin_closed_true (lo q hi : Q) :
  Qin_closed lo q hi = true <-> (lo <= q /\ q <= hi)%Q.
Proof.
  unfold Qin_closed. rewrite andb_true_iff, !Qle_bool_iff. tauto.
Qed.

Lemma Qin_closed_false (lo q hi : Q) :
  Qin_closed lo q hi = false -> (q < lo \/ hi < q)%Q.
Proof.
  unfold Qin_closed. rewrite andb_false_iff.
  intros [E | E]; apply Qle_bool_false_lt in E; auto.
Qed.

(** ** [ipixcenter] *)

Section Centre.

Context {K : Q3C}.

(** The offset added by [center_of] is smaller than the block that the
    two shifts align to. *)
Lemma center_offset_small (depth : Z) :
  1 <= depth ->
  0 <= Z.shiftl 1 (2 * (depth - 1)) - 1 < 2 ^ (2 * depth).
Proof.
  intros Hd. rewrite Z.shiftl_1_l.
  assert (0 < 2 ^ (2 * (depth - 1))) by (apply Z.pow_pos_nonneg; lia).
  assert (2 ^ (2 * (depth - 1)) < 2 ^ (2 * depth))
    by (apply Z.pow_lt_mono_r; lia).
  lia.
Qed.

Lemma center_of_eq (depth v : Z) :
  1 <= depth ->
  center_of depth v
  = v / 2 ^ (2 * depth) * 2 ^ (2 * depth) + (Z.shiftl 1 (2 * (depth - 1)) - 1).
Proof.
  intros Hd. unfold center_of.
  rewrite Z.shiftl_mul_pow2, Z.shiftr_div_pow2 by lia. lia.
Qed.

Lemma center_of_idempotent (depth v : Z) :
  1 <= depth -> center_of depth (center_of depth v) = center_of depth v.
Proof.
  intros Hd. rewrite !center_of_eq by assumption.
  pose proof (center_offset_small depth Hd) as Hc.
  set (c := Z.shiftl 1 (2 * (depth - 1)) - 1) in *.
  set (b := 2 ^ (2 * depth)) in *.
  assert (Hb : 0 < b) by lia.
  rewrite (Z.add_comm (v / b * b) c), Z.div_add by lia.
  rewrite (Z.div_small c b) by lia. lia.
Qed.

(** C8. [ipixcenter] raises a [ValueError] for every depth outside [1,30];
    for a depth in [1,30] it returns [center_of depth] of the kernel's
    full-resolution pixel id, and [center_of depth] (mask off the low
    [2*depth] bits, add [(1 << (2*(depth-1))) - 1]) is idempotent. *)
Theorem ipixcenter_depth_checked_and_idempotent
    (self : QLSC) (ra dec : Q) (depth : Z) :
  (~ (1 <= depth <= 30) -> raises_ValueError (ipixcenter self ra dec depth))
  /\ (1 <= depth <= 30 ->
      ipixcenter self ra dec depth
      = Ok (center_of depth (q3c_ang2ipix (_hprm self) ra dec))
      /\ forall v, center_of depth (center_of depth v) = center_of depth v).
Proof.
  unfold ipixcenter. split; intros Hd.
  - destruct (1 <=? depth) eqn:E1, (depth <=? 30) eqn:E2; simpl;
      try (eexists; reflexivity).
    exfalso. apply Hd. lia.
  - replace (1 <=? depth) with true by (symmetry; apply Z.leb_le; lia).
    replace (depth <=? 30) with true by (symmetry; apply Z.leb_le; lia).
    simpl. split; [reflexivity |].
    intros v. apply center_of_idempotent. lia.
Qed.

End Centre.

(** The depth check and the idempotence of C8 on the stand-in kernel:
    depth 31 is refused, and at depth 5 the transformation is stable. *)
Lemma ipixcenter_depth_checked_and_idempotent_witness :
  raises_ValueError (ipixcenter standin_qlsc 10 20 31)
  /\ center_of 5 (center_of 5 123456789) = center_of 5 123456789.
Proof.
  split.
  - apply (proj1 (ipixcenter_depth_checked_and_idempotent
                    standin_qlsc 10 20 31)). lia.
  - apply (proj2 (ipixcenter_depth_checked_and_idempotent
                    standin_qlsc 10 20 5)). lia.
Defined.

(** ** Face coordinates and polygons *)

Section Faces.

Context {K : Q3C}.

(** The guard of the scalar branch of [xy2ang] raises exactly when both
    coordinates are out of [-1,1]. *)
Lemma xy2ang_scalar (self : QLSC) (f : Z) (x y : Q) :
  0 <= f <= 5 ->
  xy2ang self (Some f) (Some x) (Some y) None
  = if negb (Qin_closed (-1) x 1) && negb (Qin_closed (-1) y 1)
    then Raise (ValueError "Values of 'x' and 'y' must be in the range [-1,1].")
    else Ok (AOne (q3c_xy2ang x y f)).
Proof.
  intros Hf. unfold xy2ang.
  replace (0 <=? f) with true by (symmetry; apply Z.leb_le; lia).
  replace (f <=? 5) with true by (symmetry; apply Z.leb_le; lia).
  reflexivity.
Qed.

(** C5, at the failing input.  [xy2ang(facenum=0, x=2, y=0)]: [x] is
    outside [-1,1], [y] is inside, and the call does not raise: it returns
    what the kernel computes for the out-of-range coordinate. *)
Theorem xy2ang_accepts_one_coordinate_out_of_range (self : QLSC) :
  Qin_closed (-1) 2 1 = false
  /\ xy2ang self (Some 0) (Some 2%Q) (Some 0%Q) None
     = Ok (AOne (q3c_xy2ang 2 0 0)).
Proof.
  split; reflexivity.
Qed.

(** C6, at the failing input.  [ipix2xy] has no bounds check: for [-1]
    (and for any other value) it returns the kernel's answer, where
    [ipix2ang] raises a [ValueError]. *)
Theorem ipix2xy_delegates_out_of_range (self : QLSC) :
  (forall ipix, ipix2xy self ipix = Ok (q3c_ipix2xy (_hprm self) ipix))
  /\ ipix2xy self (-1) = Ok (q3c_ipix2xy (_hprm self) (-1))
  /\ raises_ValueError (ipix2ang self (-1)).
Proof.
  repeat split.
  unfold ipix2ang. simpl. eexists. reflexivity.
Qed.

Lemma xy2ang_points_length (self : QLSC) (f : Z) (pts : list (Q * Q))
    (out : AngOut) :
  xy2ang self (Some f) None None (Some pts) = Ok out ->
  exists l, out = AArr l /\ List.length l = List.length pts.
Proof.
  unfold xy2ang.
  destruct (negb ((0 <=? f) && (f <=? 5))); [discriminate |].
  intros E. injection E as <-.
  eexists. split; [reflexivity |]. apply length_map.
Qed.

(** C9, at the failing input.  With [duplicate_endpoint=True] the fifth
    row that was just built is sliced off again ([polygon[:-1]]), so the
    call returns what [duplicate_endpoint=False] returns, and a returned
    polygon has 4 vertices, not 5. *)
Theorem ipix2polygon_never_repeats_endpoint (self : QLSC) (ipix : Z) :
  ipix2polygon self (Some ipix) true = ipix2polygon self (Some ipix) false
  /\ forall out, ipix2polygon self (Some ipix) true = Ok out ->
       exists l, out = AArr l /\ List.length l = 4%nat.
Proof.
  split.
  - unfold ipix2polygon.
    destruct (negb ((0 <=? ipix) && (ipix <? nbins self))); [reflexivity |].
    unfold ipix2xy. simpl.
    destruct (q3c_ipix2xy (_hprm self) ipix) as [[f x] y]. reflexivity.
  - intros out. unfold ipix2polygon.
    destruct (negb ((0 <=? ipix) && (ipix <? nbins self))); [discriminate |].
    unfold ipix2xy. simpl.
    destruct (q3c_ipix2xy (_hprm self) ipix) as [[f x] y].
    intros E. change (xy2ang self (Some f) None None
      (Some [ (x, y); (x + 2 / inject_Z (nside self), y);
              (x + 2 / inject_Z (nside self), y + 2 / inject_Z (nside self));
              (x, y + 2 / inject_Z (nside self)) ]%Q) = Ok out) in E.
    apply xy2ang_points_length in E.
    destruct E as (l & -> & Hl). exists l. split; [reflexivity | exact Hl].
Qed.

End Faces.

(** On the stand-in kernel, pixel 0 with [duplicate_endpoint=True] gives
    four vertices. *)
Example ipix2polygon_standin_four :
  exists l, ipix2polygon standin_qlsc (Some 0) true = Ok (AArr l)
            /\ List.length l = 4%nat.
Proof.
  eexists. split; [vm_compute; reflexivity | reflexivity].
Qed.

(** ** The [data_source] setter *)

Section Setter.

Context {K : Q3C} {H : Host}.

Lemma numpy_is_unbound : lookup_global "numpy" = Raise (NameError "numpy").
Proof.
  unfold lookup_global, module_globals.
  destruct astropy_available, pandas_available; reflexivity.
Qed.

(** C7, at the failing input.  Assigning [None] evaluates
    [isinstance(new_value, numpy.ndarray)] before the [None] test is
    reached; [numpy] is not a name of the module (it is imported as [np]),
    so the assignment raises [NameError], not the [ValueError] written for
    it.  The index is left as it was. *)
Theorem data_source_set_None_raises_NameError (self : QLSCIndex) :
  data_source_set self NVNone = (Raise (NameError "numpy"), self).
Proof.
  unfold data_source_set. rewrite numpy_is_unbound.
  destruct (_data_source self); reflexivity.
Qed.

End Setter.

(** ** [ang2ipix]: validation of the input *)

Section Validation.

Context {K : Q3C}.

Lemma fold_min_le (t : list Q) (x : Q) :
  let m := fold_left (fun m y => if Qlt_bool y m then y else m) t x in
  (m <= x)%Q /\ forall y, In y t -> (m <= y)%Q.
Proof.
  revert x. induction t as [| a t IH]; intros x; simpl.
  - split; [apply Qle_refl | tauto].
  - unfold Qlt_bool at 2 4.
    destruct (Qle_bool x a) eqn:E; simpl.
    + destruct (IH x) as [Hx Ht]. split; [exact Hx |].
      intros y [<- | Hy]; [| auto].
      eapply Qle_trans; [exact Hx |]. apply Qle_bool_iff. exact E.
    + destruct (IH a) as [Ha Ht]. apply Qle_bool_false_lt in E.
      split; [eapply Qle_trans; [exact Ha | apply Qlt_le_weak; exact E] |].
      intros y [<- | Hy]; auto.
Qed.

Lemma fold_max_ge (t : list Q) (x : Q) :
  let m := fold_left (fun m y => if Qlt_bool m y then y else m) t x in
  (x <= m)%Q /\ forall y, In y t -> (y <= m)%Q.
Proof.
  revert x. induction t as [| a t IH]; intros x; simpl.
  - split; [apply Qle_refl | tauto].
  - unfold Qlt_bool at 2 4.
    destruct (Qle_bool a x) eqn:E; simpl.
    + destruct (IH x) as [Hx Ht]. split; [exact Hx |].
      intros y [<- | Hy]; [| auto].
      eapply Qle_trans; [| exact Hx]. apply Qle_bool_iff. exact E.
    + destruct (IH a) as [Ha Ht]. apply Qle_bool_false_lt in E.
      split; [eapply Qle_trans; [apply Qlt_le_weak; exact E | exact Ha] |].
      intros y [<- | Hy]; auto.
Qed.

Lemma py_min_spec (l : list Q) (d : Q) :
  In d l -> exists m, py_min l = Ok m /\ (m <= d)%Q.
Proof.
  destruct l as [| x t]; [intros [] |]. intros Hd. simpl.
  eexists. split; [reflexivity |].
  destruct (fold_min_le t x) as [Hx Ht].
  destruct Hd as [<- | Hd]; auto.
Qed.

Lemma py_max_spec (l : list Q) (d : Q) :
  In d l -> exists m, py_max l = Ok m /\ (d <= m)%Q.
Proof.
  destruct l as [| x t]; [intros [] |]. intros Hd. simpl.
  eexists. split; [reflexivity |].
  destruct (fold_max_ge t x) as [Hx Ht].
  destruct Hd as [<- | Hd]; auto.
Qed.

(** The range test of the vector branch, [min(l) >= lo and max(l) <= hi],
    fails as soon as one element is out of [lo,hi]. *)
Lemma range_test_fails (lo hi : Q) (l : list Q) (d : Q) :
  In d l -> Qin_closed lo d hi = false ->
  exists m, py_min l = Ok m
    /\ (if Qle_bool lo m then M <- py_max l ;; Ok (Qle_bool M hi) else Ok false)
       = Ok false.
Proof.
  intros Hd Hout.
  destruct (py_min_spec l d Hd) as (m & Em & Hm).
  destruct (py_max_spec l d Hd) as (M & EM & HM).
  exists m. split; [exact Em |].
  destruct (Qle_bool lo m) eqn:E; [| reflexivity].
  rewrite EM. cbn [bind]. f_equal.
  apply Qle_bool_iff in E.
  apply Qin_closed_false in Hout. destruct Hout as [Hlt | Hlt].
  - exfalso. apply (Qlt_irrefl d).
    eapply Qlt_le_trans; [exact Hlt |]. eapply Qle_trans; eassumption.
  - destruct (Qle_bool M hi) eqn:E'; [| reflexivity].
    apply Qle_bool_iff in E'. exfalso. apply (Qlt_irrefl hi).
    eapply Qlt_le_trans; [exact Hlt |]. eapply Qle_trans; eassumption.
Qed.

Lemma ang2ipix_vector_dec_out (self : QLSC) (ras decs : list Q) (d : Q) :
  In d decs -> Qin_closed (-90) d 90 = false ->
  ang2ipix self (PySeq ras) (PySeq decs) None
  = Raise (ValueError "ang2ipix: dec out of range [-90,90]").
Proof.
  intros Hd Hout. unfold ang2ipix. cbn [is_None orb bind is_Iterable seq_of].
  destruct (range_test_fails (-90) 90 decs d Hd Hout) as (m & Em & Et).
  rewrite Em. cbn [bind]. rewrite Et. reflexivity.
Qed.

Lemma ang2ipix_vector_ra_out (self : QLSC) (ras decs : list Q) (r : Q) :
  In r ras -> Qin_closed 0 r 360 = false ->
  raises_ValueError (ang2ipix self (PySeq ras) (PySeq decs) None).
Proof.
  intros Hr Hout. unfold ang2ipix. cbn [is_None orb bind is_Iterable seq_of].
  destruct (py_min decs) as [m | e] eqn:Em.
  2:{ destruct decs; simpl in Em; [| discriminate].
      injection Em as <-. eexists. reflexivity. }
  cbn [bind].
  assert (Hmax : exists M, py_max decs = Ok M).
  { destruct decs; simpl in *; [discriminate | eexists; reflexivity]. }
  destruct Hmax as (M & EM). rewrite EM.
  destruct (Qle_bool (-90) m); cbn [bind negb];
    [destruct (Qle_bool M 90) |]; cbn [bind negb];
    try (eexists; reflexivity).
  destruct (range_test_fails 0 360 ras r Hr Hout) as (m' & Em' & Et).
  rewrite Em'. cbn [bind]. rewrite Et. eexists. reflexivity.
Qed.

(** The scalar branch never raises: out-of-range numbers are handed to
    [_normalize_ang], and the kernel gets what it returns. *)
Lemma ang2ipix_scalar (self : QLSC) (ra dec : Q) :
  ang2ipix self (PyNum ra) (PyNum dec) None
  = Ok (OInt
      (if Qin_closed (-90) dec 90 && Qin_closed 0 ra 360
       then q3c_ang2ipix (_hprm self) ra dec
       else q3c_ang2ipix (_hprm self) (fst (_normalize_ang (ra, dec)))
                                       (snd (_normalize_ang (ra, dec))))).
Proof.
  unfold ang2ipix.
  cbn [is_None orb bind is_Iterable in_closed].
  destruct (Qin_closed (-90) dec 90); cbn [bind andb negb].
  - destruct (Qin_closed 0 ra 360); cbn [bind negb];
      [reflexivity |].
    destruct (_normalize_ang (ra, dec)); reflexivity.
  - destruct (_normalize_ang (ra, dec)); reflexivity.
Qed.

(** C4.  With sequences for [ra] and [dec], [ang2ipix] raises a
    [ValueError] whenever some [dec] is outside [-90,90] or some [ra] is
    outside [0,360].  With two numbers of which one is out of range
    ([dec = 91] for instance) it raises nothing: the pair goes through
    [_normalize_ang] and the kernel is called on the normalized pair. *)
Theorem ang2ipix_vector_rejects_scalar_normalizes (self : QLSC) :
  (forall ras decs,
     (exists d, In d decs /\ Qin_closed (-90) d 90 = false)
     \/ (exists r, In r ras /\ Qin_closed 0 r 360 = false) ->
     raises_ValueError (ang2ipix self (PySeq ras) (PySeq decs) None))
  /\ (forall ra dec,
        Qin_closed (-90) dec 90 = false \/ Qin_closed 0 ra 360 = false ->
        ang2ipix self (PyNum ra) (PyNum dec) None
        = Ok (OInt (q3c_ang2ipix (_hprm self)
                      (fst (_normalize_ang (ra, dec)))
                      (snd (_normalize_ang (ra, dec))))))
  /\ (forall ra,
        ang2ipix self (PyNum ra) (PyNum 91) None
        = Ok (OInt (q3c_ang2ipix (_hprm self)
                      (fst (_normalize_ang (ra, 91%Q)))
                      (snd (_normalize_ang (ra, 91%Q)))))).
Proof.
  split; [| split].
  - intros ras decs [(d & Hd & Hout) | (r & Hr & Hout)].
    + eexists. eapply ang2ipix_vector_dec_out; eassumption.
    + eapply ang2ipix_vector_ra_out; eassumption.
  - intros ra dec Hout. rewrite ang2ipix_scalar.
    destruct Hout as [-> | ->]; [reflexivity |].
    rewrite andb_false_r. reflexivity.
  - intros ra. rewrite ang2ipix_scalar. reflexivity.
Qed.

End Validation.

(** C4 on the stand-in kernel: the sequences [[10;20]], [[0;91]] are
    refused, and the numbers [(10, 91)] are normalized and converted. *)
Lemma ang2ipix_vector_rejects_scalar_normalizes_witness :
  raises_ValueError
    (ang2ipix standin_qlsc (PySeq [10; 20]%Q) (PySeq [0; 91]%Q) None)
  /\ ang2ipix standin_qlsc (PyNum 10) (PyNum 91) None = Ok (OInt 0).
Proof.
  split.
  - apply (proj1 (ang2ipix_vector_rejects_scalar_normalizes standin_qlsc)).
    left. exists 91%Q. split; [simpl; auto | reflexivity].
  - rewrite (proj1 (proj2 (ang2ipix_vector_rejects_scalar_normalizes
                             standin_qlsc)) 10%Q 91%Q);
      [reflexivity | left; reflexivity].
Defined.

(** ** Pixel round trip *)

Section RoundTrip.

Context {K : Q3C}.

(** C2.  For a pixel id in [0, nbins), [ipix2ang] passes its bounds
    check, and [ang2ipix] on the angles it returns neither raises nor
    normalizes them: it returns the same pixel id, the kernel keeping its
    contract. *)
Theorem ang2ipix_ipix2ang_round_trip (self : QLSC) (ipix : Z) :
  kernel_angles_in_range self ->
  kernel_round_trip self ->
  0 <= ipix < nbins self ->
  ipix_round_trip self ipix = Ok (OInt ipix).
Proof.
  intros Hrange Hrt Hi. unfold ipix_round_trip, ipix2ang.
  replace (0 <=? ipix) with true by (symmetry; apply Z.leb_le; lia).
  replace (ipix <? nbins self) with true by (symmetry; apply Z.ltb_lt; lia).
  cbn [andb negb bind]. rewrite ang2ipix_scalar.
  destruct (Hrange ipix Hi) as [-> ->]. cbn [andb].
  rewrite (Hrt ipix Hi). reflexivity.
Qed.

End RoundTrip.

Lemma standin_pixels (ipix : Z) :
  0 <= ipix < nbins standin_qlsc ->
  ipix = 0 \/ ipix = 1 \/ ipix = 2 \/ ipix = 3 \/ ipix = 4 \/ ipix = 5.
Proof.
  change (nbins standin_qlsc) with 6. lia.
Qed.

Lemma standin_angles_in_range : kernel_angles_in_range standin_qlsc.
Proof.
  intros ipix Hi. apply standin_pixels in Hi.
  repeat (destruct Hi as [-> | Hi]; [split; vm_compute; reflexivity |]).
  subst. split; vm_compute; reflexivity.
Qed.

Lemma standin_round_trip : kernel_round_trip standin_qlsc.
Proof.
  intros ipix Hi. apply standin_pixels in Hi.
  repeat (destruct Hi as [-> | Hi]; [vm_compute; reflexivity |]).
  subst. vm_compute. reflexivity.
Qed.

(** The round trip of pixel 4 of the six-pixel scheme on the stand-in
    kernel. *)
Lemma ang2ipix_ipix2ang_round_trip_witness :
  ipix_round_trip standin_qlsc 4 = Ok (OInt 4).
Proof.
  apply (ang2ipix_ipix2ang_round_trip standin_qlsc 4).
  - exact standin_angles_in_range.
  - exact standin_round_trip.
  - vm_compute. split; [discriminate | reflexivity].
Defined.

(** ** [face_number] *)

Section FaceNumber.

Context {K : Q3C}.

(** With [ra] and [dec] both [None] and a pixel id that is true (not 0)
    and in range, the pixel-id branch runs: the face is the kernel's face
    of the angles of the pixel. *)
Lemma face_number_of_pixel (self : QLSC) (ipix : Z) :
  1 <= ipix < nbins self ->
  face_number self PyNone PyNone (Some ipix)
  = Ok (q3c_facenum (_hprm self)
          (fst (q3c_ipix2ang (_hprm self) ipix))
          (snd (q3c_ipix2ang (_hprm self) ipix))).
Proof.
  intros Hi. unfold face_number, truthy_ipix, ipix2ang.
  replace (ipix =? 0) with false by (symmetry; apply Z.eqb_neq; lia).
  replace (0 <=? ipix) with true by (symmetry; apply Z.leb_le; lia).
  replace (ipix <? nbins self) with true by (symmetry; apply Z.ltb_lt; lia).
  reflexivity.
Qed.

(** C10, amended.  [ipix=0] does not take the pixel-id branch, because
    [ipix] is tested by truthiness; the call then fails with a
    [TypeError], not with a [ValueError]: left out, [ra] and [dec] are
    missing positional arguments; passed as [None], the range test
    [-90 <= dec <= 90] of the other branch compares a number with [None].
    For every [ipix] in [1, nbins) the pixel-id branch is taken and the
    kernel's face of the pixel, a face in [0,5], is returned. *)
Theorem face_number_ipix_zero_is_TypeError (self : QLSC) :
  kernel_face_in_range self ->
  (exists msg, face_number_call self Omitted Omitted (Passed (Some 0))
               = Raise (TypeError msg))
  /\ face_number_call self (Passed PyNone) (Passed PyNone) (Passed (Some 0))
     = Raise cmp_TypeError
  /\ (forall ipix, 1 <= ipix < nbins self ->
        exists f,
          face_number_call self (Passed PyNone) (Passed PyNone)
            (Passed (Some ipix)) = Ok f
          /\ f = q3c_facenum (_hprm self)
                   (fst (q3c_ipix2ang (_hprm self) ipix))
                   (snd (q3c_ipix2ang (_hprm self) ipix))
          /\ 0 <= f <= 5).
Proof.
  intros Hface. split; [| split].
  - eexists. reflexivity.
  - reflexivity.
  - intros ipix Hi. eexists. split; [| split].
    + unfold face_number_call. apply face_number_of_pixel. exact Hi.
    + reflexivity.
    + apply Hface.
Qed.

End FaceNumber.

Lemma standin_face_in_range : kernel_face_in_range standin_qlsc.
Proof.
  intros ra dec. cbn. lia.
Qed.

(** The amended C10 on the six-pixel scheme of the stand-in kernel. *)
Lemma face_number_ipix_zero_is_TypeError_witness :
  (exists msg, face_number_call standin_qlsc Omitted Omitted (Passed (Some 0))
               = Raise (TypeError msg))
  /\ exists f, face_number_call standin_qlsc (Passed PyNone) (Passed PyNone)
                 (Passed (Some 3)) = Ok f /\ 0 <= f <= 5.
Proof.
  destruct (face_number_ipix_zero_is_TypeError standin_qlsc
              standin_face_in_range) as (H0 & _ & Hpos).
  split; [exact H0 |].
  destruct (Hpos 3) as (f & Ef & _ & Hf).
  - vm_compute. split; [discriminate | reflexivity].
  - exists f. split; assumption.
Defined.

(** C10 as stated fails: on the six-pixel scheme, [face_number] with
    [ipix=0] raises no [ValueError], whether [ra] and [dec] are left out or
    passed as [None]. *)
Lemma face_number_ipix_zero_no_ValueError :
  ~ raises_ValueError
      (face_number_call standin_qlsc Omitted Omitted (Passed (Some 0)))
  /\ ~ raises_ValueError
         (face_number_call standin_qlsc (Passed PyNone) (Passed PyNone)
            (Passed (Some 0))).
Proof.
  split; intros (msg & E); vm_compute in E; discriminate.
Qed.

(** ** Bulk insertion *)

Lemma execute_insert_usable (c : Connection) (r : Row) :
  usable c ->
  exists c1, execute_insert c r = Ok c1 /\ usable c1
    /\ visible c1 = visible c ++ [r] /\ ncommits c1 = ncommits c.
Proof.
  intros [Hc Ht]. unfold execute_insert. rewrite Hc, Ht. cbn [negb].
  eexists. split; [reflexivity |]. unfold usable, visible. cbn.
  rewrite app_assoc. auto.
Qed.

Lemma commit_usable (c : Connection) :
  usable c ->
  exists c1, commit c = Ok c1 /\ usable c1
    /\ visible c1 = visible c /\ ncommits c1 = ncommits c + 1
    /\ pending c1 = [].
Proof.
  intros [Hc Ht]. unfold commit. rewrite Hc.
  eexists. split; [reflexivity |]. unfold usable, visible. cbn.
  rewrite app_nil_r. auto.
Qed.

(** The loop of [add_points] over rows that all evaluate: every row is
    inserted, and a commit runs each time the counter passes 50000, that
    is once per 50001 rows. *)
Lemma insert_loop_commits (rows : list Row) :
  forall (c : Connection) (count : Z),
    usable c -> 0 <= count <= 50000 ->
    exists c', insert_loop c count (map Ok rows) = (Ok tt, c')
      /\ usable c'
      /\ visible c' = visible c ++ rows
      /\ ncommits c'
         = ncommits c + (count + Z.of_nat (List.length rows)) / 50001.
Proof.
  induction rows as [| r rows IH]; intros c count Hu Hcount.
  - exists c. cbn. rewrite app_nil_r, Z.add_0_r, Z.div_small by lia.
    repeat split; try apply Hu. lia.
  - cbn [map insert_loop].
    destruct (execute_insert_usable c r Hu) as (c1 & -> & Hu1 & Hv1 & Hn1).
    destruct (count + 1 >? 50000) eqn:E.
    + assert (count = 50000) by lia. subst count.
      destruct (commit_usable c1 Hu1) as (c2 & -> & Hu2 & Hv2 & Hn2 & _).
      destruct (IH c2 0 Hu2 ltac:(lia)) as (c' & -> & Hu' & Hv' & Hn').
      exists c'. repeat split; try apply Hu'.
      * rewrite Hv', Hv2, Hv1, <- app_assoc. reflexivity.
      * rewrite Hn', Hn2, Hn1.
        replace (50000 + Z.of_nat (List.length (r :: rows)))
          with (Z.of_nat (List.length rows) + 1 * 50001)
          by (cbn [List.length]; lia).
        rewrite Z.div_add by lia. cbn [Z.add]. lia.
    + destruct (IH c1 (count + 1) Hu1 ltac:(lia)) as (c' & -> & Hu' & Hv' & Hn').
      exists c'. repeat split; try apply Hu'.
      * rewrite Hv', Hv1, <- app_assoc. reflexivity.
      * rewrite Hn', Hn1. f_equal. f_equal. cbn [List.length]. lia.
Qed.

Lemma tuple_rows_ok (points : list (Q * Q)) :
  tuple_rows points = map Ok (rows_of points).
Proof.
  unfold tuple_rows, rows_of. rewrite map_map. reflexivity.
Qed.

(** [ra[i], dec[i]] evaluates for every [i] when [dec] is as long as
    [ra]. *)
Lemma indexed_rows_ok (ra dec : list Q) :
  List.length ra = List.length dec ->
  indexed_rows ra (Some dec) = map Ok (rows_of (combine ra dec)).
Proof.
  revert dec. unfold indexed_rows.
  induction ra as [| a ra IH]; intros [| d dec] Hlen; try discriminate.
  - reflexivity.
  - cbn [List.length seq map combine rows_of nth_error fst snd].
    rewrite <- seq_shift, map_map. cbn [nth_error].
    rewrite (IH dec) by (cbn in Hlen; lia). reflexivity.
Qed.

Section Bulk.

Context {K : Q3C} {H : Host}.

(** A bulk insertion of [n > 0] points into a usable store: the loop
    inserts every row and commits [n / 50001] times, the [with] block
    commits once more, and all rows are in the table. *)
Lemma add_points_run (self : QLSCIndex) (c : Connection)
    (ra dec : option (list Q)) (points : option (list (Q * Q)))
    (pts : list (Q * Q)) :
  data_source self = DSConnection c ->
  usable c ->
  bulk_call ra dec points pts ->
  pts <> [] ->
  exists c1 c2,
    insert_loop c 0 (map Ok (rows_of pts)) = (Ok tt, c1)
    /\ ncommits c1 = ncommits c + Z.of_nat (List.length pts) / 50001
    /\ commit c1 = Ok c2
    /\ add_points self ra dec points
       = (Ok tt, set_source self (DSConnection c2))
    /\ ncommits c2 = ncommits c + Z.of_nat (List.length pts) / 50001 + 1
    /\ visible c2 = visible c ++ rows_of pts
    /\ number_of_points (set_source self (DSConnection c2))
       = Ok (Z.of_nat (List.length (visible c))
             + Z.of_nat (List.length pts)).
Proof.
  intros Hds Hu Hcall Hne.
  destruct (insert_loop_commits (rows_of pts) c 0 Hu ltac:(lia))
    as (c1 & Hloop & Hu1 & Hv1 & Hn1).
  destruct (commit_usable c1 Hu1) as (c2 & Hcommit & Hu2 & Hv2 & Hn2 & _).
  assert (Hlen : List.length (rows_of pts) = List.length pts)
    by apply length_map.
  rewrite Hlen, Z.add_0_l in Hn1.
  exists c1, c2. repeat split; try assumption.
  - unfold add_points.
    destruct Hcall as [(-> & -> & ->) | (r & d & -> & -> & -> & Hrd & ->)].
    + destruct pts as [| p pts]; [congruence |].
      cbn [truthy orb andb negb]. rewrite Hds, tuple_rows_ok, Hloop.
      unfold with_transaction. rewrite Hcommit. reflexivity.
    + destruct r as [| a r]; [cbn in Hne; congruence |].
      destruct d as [| b d]; [discriminate |].
      cbn [truthy orb andb negb]. rewrite Hds, indexed_rows_ok by exact Hrd.
      rewrite Hloop. unfold with_transaction. rewrite Hcommit. reflexivity.
  - lia.
  - rewrite Hv2, Hv1. reflexivity.
  - unfold number_of_points, data_source, select_all. cbn [_data_source set_source].
    destruct Hu2 as [-> ->]. cbn [negb bind].
    rewrite Hv2, Hv1, length_app, Hlen. rewrite Nat2Z.inj_add. reflexivity.
Qed.

(** C3, amended.  A bulk insertion, of pairs or of two sequences,
    commits inside its loop each time more than 50,000 rows were inserted
    since the last commit, [n / 50001] times for [n] rows, and the [with]
    block around the loop commits once more when it is left.  Inserting
    120,000 points makes the loop commit exactly twice, three commits in
    all; afterwards [number_of_points] has grown by the number of points
    inserted. *)
Theorem add_points_120000_commits (self : QLSCIndex) (c : Connection)
    (ra dec : option (list Q)) (points : option (list (Q * Q)))
    (pts : list (Q * Q)) :
  data_source self = DSConnection c ->
  usable c ->
  bulk_call ra dec points pts ->
  pts <> [] ->
  exists c1 c2,
    insert_loop c 0 (map Ok (rows_of pts)) = (Ok tt, c1)
    /\ ncommits c1 = ncommits c + Z.of_nat (List.length pts) / 50001
    /\ commit c1 = Ok c2
    /\ add_points self ra dec points
       = (Ok tt, set_source self (DSConnection c2))
    /\ ncommits c2 = ncommits c1 + 1
    /\ number_of_points (set_source self (DSConnection c2))
       = Ok (Z.of_nat (List.length (visible c))
             + Z.of_nat (List.length pts))
    /\ (Z.of_nat (List.length pts) = 120000 ->
        ncommits c1 = ncommits c + 2 /\ ncommits c2 = ncommits c + 3).
Proof.
  intros Hds Hu Hcall Hne.
  destruct (add_points_run self c ra dec points pts Hds Hu Hcall Hne)
    as (c1 & c2 & Hloop & Hn1 & Hcommit & Hadd & Hn2 & _ & Hcount).
  exists c1, c2.
  split; [exact Hloop |]. split; [exact Hn1 |]. split; [exact Hcommit |].
  split; [exact Hadd |]. split; [lia |]. split; [exact Hcount |].
  intros Hlen. rewrite Hlen in Hn1, Hn2.
  change (120000 / 50001) with 2 in Hn1, Hn2. lia.
Qed.

End Bulk.

Lemma origin_points_length (n : Z) :
  0 <= n -> Z.of_nat (List.length (origin_points n)) = n.
Proof.
  intros Hn. unfold origin_points. rewrite repeat_length. lia.
Qed.

Lemma connection_with_usable (rows : list Row) : usable (connection_with rows).
Proof.
  split; reflexivity.
Qed.

(** The amended C3 on an empty store: 120,000 points at the origin are
    inserted with two commits of the loop and three in all. *)
Lemma add_points_120000_commits_witness :
  exists c1 c2,
    insert_loop (connection_with []) 0
      (map Ok (rows_of (origin_points 120000))) = (Ok tt, c1)
    /\ add_points (standin_index []) None None (Some (origin_points 120000))
       = (Ok tt, set_source (standin_index []) (DSConnection c2))
    /\ ncommits c1 = 2 /\ ncommits c2 = 3
    /\ number_of_points (set_source (standin_index []) (DSConnection c2))
       = Ok 120000.
Proof.
  destruct (add_points_120000_commits (standin_index []) (connection_with [])
              None None (Some (origin_points 120000)) (origin_points 120000))
    as (c1 & c2 & Hloop & _ & _ & Hadd & _ & Hcount & Hn).
  - reflexivity.
  - apply connection_with_usable.
  - left. auto.
  - intros E. pose proof (origin_points_length 120000 ltac:(lia)) as L.
    rewrite E in L. discriminate L.
  - destruct (Hn (origin_points_length 120000 ltac:(lia))) as [H1 H2].
    exists c1, c2.
    split; [exact Hloop |]. split; [exact Hadd |].
    split; [exact H1 |]. split; [exact H2 |].
    rewrite Hcount, origin_points_length by lia. reflexivity.
Defined.

(** C3 as stated fails: on an empty store, the loop of [add_points]
    has committed 2 times, not 3, when 120,000 points are in; it has not
    committed at all after 50,000 rows, and once, not twice, after
    100,000. *)
Lemma add_points_batch_commits_not_three :
  ncommits (snd (insert_loop (connection_with []) 0
                   (tuple_rows (origin_points 120000)))) = 2
  /\ ncommits (snd (insert_loop (connection_with []) 0
                      (tuple_rows (origin_points 120000)))) <> 3
  /\ ncommits (snd (insert_loop (connection_with []) 0
                      (tuple_rows (origin_points 50000)))) = 0
  /\ ncommits (snd (insert_loop (connection_with []) 0
                      (tuple_rows (origin_points 100000)))) = 1.
Proof.
  assert (E : forall n, 0 <= n ->
            ncommits (snd (insert_loop (connection_with []) 0
                             (tuple_rows (origin_points n)))) = n / 50001).
  { intros n Hn. rewrite tuple_rows_ok.
    destruct (insert_loop_commits (rows_of (origin_points n))
                (connection_with []) 0 (connection_with_usable [])
                ltac:(lia)) as (c' & Hl & _ & _ & Hc).
    rewrite Hl. cbn [snd]. rewrite Hc.
    unfold rows_of. rewrite length_map, origin_points_length by exact Hn.
    reflexivity. }
  rewrite !E by lia. repeat split. discriminate.
Qed.

(** ** Radial query *)

Section Radial.

Context {K : Q3C} {H : Host}.

Lemma in_interval_iff (ipix lo hi : Z) :
  in_interval ipix (lo, hi) = true <-> lo <= ipix < hi.
Proof.
  unfold in_interval. cbn [fst snd].
  rewrite andb_true_iff, Z.geb_leb, Z.leb_le, Z.ltb_lt. tauto.
Qed.

(** A pixel id is in the cover when it lies in the [k]-th interval, for
    some [k] below 50, of zone 1 or of zone 0. *)
Lemma in_cover_iff (hprm : Hprm) (center_ra center_dec radius : Q) (ipix : Z) :
  in_cover hprm center_ra center_dec radius ipix = true
  <-> exists zone k,
        (zone = 1 \/ zone = 0) /\ (k < 50)%nat
        /\ radial_query_it hprm center_ra center_dec radius
             (2 * Z.of_nat k) zone <= ipix
           < radial_query_it hprm center_ra center_dec radius
               (2 * Z.of_nat k + 1) zone.
Proof.
  unfold in_cover, zone_intervals. rewrite existsb_exists. split.
  - intros (iv & Hin & Hiv). apply in_app_or in Hin.
    destruct Hin as [Hin | Hin]; apply in_map_iff in Hin;
      destruct Hin as (k & <- & Hk); apply in_seq in Hk;
      apply in_interval_iff in Hiv;
      [exists 1, k | exists 0, k]; (split; [auto | split; [lia | exact Hiv]]).
  - intros (zone & k & Hz & Hk & Hiv).
    exists (kernel_interval hprm center_ra center_dec radius zone k).
    split; [| apply in_interval_iff; exact Hiv].
    apply in_or_app.
    destruct Hz as [-> | ->]; [left | right];
      apply in_map; apply in_seq; lia.
Qed.

Lemma fold_orb_existsb {A : Type} (f : A -> bool) (l : list A) (b : bool) :
  fold_left orb (map f l) b = b || existsb f l.
Proof.
  revert b. induction l as [| a l IH]; intros b; cbn.
  - rewrite orb_false_r. reflexivity.
  - rewrite IH, orb_assoc. reflexivity.
Qed.

Lemma ang2ipix_scalar_ipix (self : QLSC) (ra dec : Q) :
  ang2ipix self (PyNum ra) (PyNum dec) None
  = Ok (OInt (scalar_ipix self ra dec)).
Proof.
  unfold scalar_ipix. rewrite ang2ipix_scalar. reflexivity.
Qed.

(** The hundred written-out comparisons of [_radial_match] are the
    membership test in the union of the two zones' intervals. *)
Lemma _radial_match_selected (self : QLSCIndex) (ra dec : Q)
    (center_ra center_dec radius : Q) :
  _radial_match self (Some ra) (Some dec) center_ra center_dec radius
  = Ok (selected (qlsc self) center_ra center_dec radius (ra, dec)).
Proof.
  unfold _radial_match. cbn [cell].
  rewrite ang2ipix_scalar_ipix. cbn [bind].
  unfold selected, within_radius, in_cover. cbn [fst snd].
  set (ipix := scalar_ipix (qlsc self) ra dec).
  rewrite <- (orb_false_l (existsb _ _)), <- fold_orb_existsb.
  reflexivity.
Qed.

Lemma scan_selected (self : QLSCIndex) (center_ra center_dec radius : Q)
    (pts : list (Q * Q)) :
  forall matches,
    scan self (rows_of pts) center_ra center_dec radius matches
    = Ok (matches
          ++ rows_of (filter (selected (qlsc self) center_ra center_dec radius)
                             pts)).
Proof.
  induction pts as [| [ra dec] pts IH]; intros matches.
  - cbn. rewrite app_nil_r. reflexivity.
  - cbn [rows_of map scan fst snd].
    rewrite _radial_match_selected. cbn [bind filter].
    fold (rows_of pts). rewrite IH.
    destruct (selected (qlsc self) center_ra center_dec radius (ra, dec)).
    + cbn [rows_of map fst snd]. rewrite <- app_assoc. reflexivity.
    + reflexivity.
Qed.

(** C1.  Over an SQLite-backed store whose rows are the points [pts],
    [radial_query] returns, in the order of the rows, exactly the points
    whose pixel id [ang2ipix(ra, dec)] is in one of the 50 half-open
    intervals of zone 1 or of zone 0 and whose [sindist] to the centre is
    strictly below [sin^2(radius/2)]; it returns the empty list, and does
    not raise, when no point qualifies. *)
Theorem radial_query_returns_selected (self : QLSCIndex) (c : Connection)
    (pts : list (Q * Q)) (center_ra center_dec radius : Q) :
  data_source self = DSConnection c ->
  usable c ->
  visible c = rows_of pts ->
  radial_query self center_ra center_dec radius
  = Ok (rows_of (filter (selected (qlsc self) center_ra center_dec radius)
                        pts))
  /\ ((forall p, In p pts ->
         selected (qlsc self) center_ra center_dec radius p = false) ->
      radial_query self center_ra center_dec radius = Ok []).
Proof.
  intros Hds [Hc Ht] Hrows.
  assert (E : radial_query self center_ra center_dec radius
              = Ok (rows_of (filter (selected (qlsc self) center_ra
                                       center_dec radius) pts))).
  { unfold radial_query, select_all. rewrite Hds, Hc, Ht. cbn [negb bind].
    rewrite Hrows, scan_selected. reflexivity. }
  split; [exact E |].
  intros Hnone. rewrite E.
  replace (filter _ pts) with (@nil (Q * Q)); [reflexivity |].
  symmetry. clear E Hrows. induction pts as [| p pts IH]; [reflexivity |].
  cbn [filter]. rewrite (Hnone p) by (left; reflexivity).
  apply IH. intros q Hq. apply Hnone. right. exact Hq.
Qed.

End Radial.

(** C1 on the stand-in kernel: of three stored points, the query around
    (180, 0) with radius 1 keeps the one inside the disc. *)
Lemma radial_query_returns_selected_witness :
  radial_query
    (standin_index (rows_of [ (10, 0); (180.25, 0.25); (181, 3) ]%Q))
    180 0 1
  = Ok (rows_of [ (180.25, 0.25) ]%Q).
Proof.
  apply (proj1 (radial_query_returns_selected
    (standin_index (rows_of [ (10, 0); (180.25, 0.25); (181, 3) ]%Q))
    (connection_with (rows_of [ (10, 0); (180.25, 0.25); (181, 3) ]%Q))
    [ (10, 0); (180.25, 0.25); (181, 3) ]%Q 180 0 1
    eq_refl (connection_with_usable _) eq_refl)).
Defined.

(** * Further properties of [QLSC] *)

Section SchemeSize.

Context {K : Q3C}.

Lemma four_pow (b : Z) : 0 <= b -> (2 ^ b) ^ 2 = 4 ^ b.
Proof.
  intros Hb. change 4 with (2 ^ 2).
  rewrite <- !Z.pow_mul_r by lia. f_equal. lia.
Qed.

(** X1.  [QLSC(bin_level)] raises a [ValueError] for a bin level outside
    [0,30].  When it returns a scheme, the bin level is in [0,30] and,
    the kernel reading back the [nside] it was created with, the scheme
    has [nside = 2^bin_level] and [nbins = 6 * 4^bin_level], between 6
    and [6 * 2^60]. *)
Theorem QLSC_init_scheme_size (b : Z) :
  kernel_keeps_nside ->
  (~ 0 <= b <= 30 -> raises_ValueError (QLSC_init b))
  /\ (forall q, QLSC_init b = Ok q ->
        0 <= b <= 30 /\ bin_level q = b
        /\ nside q = 2 ^ b /\ nbins q = 6 * 4 ^ b
        /\ 6 <= nbins q <= 6 * 2 ^ 60).
Proof.
  intros Hk. unfold QLSC_init. split.
  - intros Hb.
    destruct (0 <=? b) eqn:E1, (b <=? 30) eqn:E2; cbn [andb negb];
      try (eexists; reflexivity).
    exfalso. apply Hb. lia.
  - intros q.
    destruct (0 <=? b) eqn:E1, (b <=? 30) eqn:E2; cbn [andb negb];
      try discriminate.
    destruct (init_q3c (2 ^ b)) as [h |] eqn:Eh; [| discriminate].
    intros E. injection E as <-. cbn [bin_level].
    assert (Hb : 0 <= b <= 30) by lia.
    assert (Hn : nside {| bin_level := b; _hprm := h |} = 2 ^ b)
      by (unfold nside; cbn [_hprm]; apply Hk; exact Eh).
    assert (Hbins : nbins {| bin_level := b; _hprm := h |} = 6 * 4 ^ b)
      by (unfold nbins; rewrite Hn, four_pow by lia; lia).
    assert (Hlo : 1 <= 4 ^ b)
      by (change 1 with (4 ^ 0); apply Z.pow_le_mono_r; lia).
    assert (Hhi : 4 ^ b <= 2 ^ 60)
      by (change (2 ^ 60) with (4 ^ 30); apply Z.pow_le_mono_r; lia).
    rewrite Hbins. generalize dependent (4 ^ b). intros p _ Hlo Hhi.
    repeat split; try assumption; lia.
Qed.

End SchemeSize.

Lemma standin_keeps_nside : kernel_keeps_nside.
Proof.
  intros n h E. cbn in E. injection E as <-. reflexivity.
Qed.

(** X1 on the stand-in kernel: bin level 31 is refused and bin level 1
    gives 24 pixels. *)
Lemma QLSC_init_scheme_size_witness :
  raises_ValueError (QLSC_init (K := standin_kernel) 31)
  /\ nbins (@Build_QLSC standin_kernel 1 2) = 6 * 4 ^ 1.
Proof.
  split.
  - apply (proj1 (QLSC_init_scheme_size 31 standin_keeps_nside)). lia.
  - apply (proj2 (QLSC_init_scheme_size 1 standin_keeps_nside)
             (@Build_QLSC standin_kernel 1 2) eq_refl).
Defined.

Section MoreValidation.

Context {K : Q3C}.


Lemma fold_min_in (t : list Q) (x : Q) :
  In (fold_left (fun m y => if Qlt_bool y m then y else m) t x) (x :: t).
Proof.
  revert x. induction t as [| a t IH]; intros x; cbn [fold_left].
  - left. reflexivity.
  - destruct (Qlt_bool a x).
    + right. apply IH.
    + destruct (IH x) as [E | Hin]; [left; exact E | right; right; exact Hin].
Qed.

Lemma fold_max_in (t : list Q) (x : Q) :
  In (fold_left (fun m y => if Qlt_bool m y then y else m) t x) (x :: t).
Proof.
  revert x. induction t as [| a t IH]; intros x; cbn [fold_left].
  - left. reflexivity.
  - destruct (Qlt_bool x a).
    + right. apply IH.
    + destruct (IH x) as [E | Hin]; [left; exact E | right; right; exact Hin].
Qed.

(** The range test [min(l) >= lo and max(l) <= hi] passes on a sequence
    that is not empty and has all its elements in [lo,hi]. *)
Lemma range_test_passes (lo hi : Q) (l : list Q) :
  l <> [] -> forallb (fun q => Qin_closed lo q hi) l = true ->
  exists m, py_min l = Ok m
    /\ (if Qle_bool lo m then M <- py_max l ;; Ok (Qle_bool M hi) else Ok false)
       = Ok true.
Proof.
  intros Hne Hall. destruct l as [| x t]; [congruence |].
  rewrite forallb_forall in Hall.
  eexists. split; [reflexivity |].
  pose proof (Hall _ (fold_min_in t x)) as Hm.
  pose proof (Hall _ (fold_max_in t x)) as HM.
  unfold Qin_closed in Hm, HM. apply andb_true_iff in Hm, HM.
  rewrite (proj1 Hm). cbn [py_max bind]. rewrite (proj2 HM). reflexivity.
Qed.

Lemma forallb_false_witness (f : Q -> bool) (l : list Q) :
  forallb f l = false -> exists q, In q l /\ f q = false.
Proof.
  induction l as [| a l IH]; cbn; [discriminate |].
  destruct (f a) eqn:E; cbn.
  - intros Hl. destruct (IH Hl) as (q & Hq & Hf). exists q. auto.
  - intros _. exists a. auto.
Qed.

(** X3.  Two sequences are accepted by [ang2ipix] exactly when neither
    is empty, every [dec] is in [-90,90] and every [ra] is in [0,360];
    they are then handed to the kernel as they are (their lengths are not
    compared).  In every other case the call raises a [ValueError]. *)
Theorem ang2ipix_vector_accepted_iff (self : QLSC) (ras decs : list Q) :
  let acceptable :=
    negb (Nat.eqb (List.length decs) 0) && negb (Nat.eqb (List.length ras) 0)
    && forallb (fun d => Qin_closed (-90) d 90) decs
    && forallb (fun r => Qin_closed 0 r 360) ras in
  (acceptable = true ->
   ang2ipix self (PySeq ras) (PySeq decs) None
   = q3c_ang2ipix_seq (_hprm self) ras decs)
  /\ (acceptable = false ->
      raises_ValueError (ang2ipix self (PySeq ras) (PySeq decs) None)).
Proof.
  cbv zeta. split.
  - intros Hacc. repeat (apply andb_true_iff in Hacc; destruct Hacc as [Hacc ?]).
    assert (Hd : decs <> []) by (intros ->; discriminate).
    assert (Hr : ras <> []) by (intros ->; discriminate).
    destruct (range_test_passes (-90) 90 decs Hd ltac:(assumption))
      as (m & Em & Et).
    destruct (range_test_passes 0 360 ras Hr ltac:(assumption))
      as (m' & Em' & Et').
    unfold ang2ipix. cbn [is_None orb bind is_Iterable seq_of].
    rewrite Em. cbn [bind]. rewrite Et. cbn [bind negb].
    rewrite Em'. cbn [bind]. rewrite Et'. reflexivity.
  - intros Hacc.
    destruct decs as [| d decs']; [eexists; reflexivity |].
    destruct (forallb (fun d => Qin_closed (-90) d 90) (d :: decs')) eqn:Ed.
    2:{ apply forallb_false_witness in Ed. destruct Ed as (q & Hq & Hout).
        eexists. eapply ang2ipix_vector_dec_out; eassumption. }
    destruct ras as [| r ras'].
    { destruct (range_test_passes (-90) 90 (d :: decs') ltac:(discriminate) Ed)
        as (m & Em & Et).
      unfold ang2ipix. cbn [is_None orb bind is_Iterable seq_of].
      rewrite Em. cbn [bind]. rewrite Et. eexists. reflexivity. }
    cbn [List.length Nat.eqb negb andb] in Hacc.
    apply forallb_false_witness in Hacc. destruct Hacc as (q & Hq & Hout).
    eapply ang2ipix_vector_ra_out; eassumption.
Qed.

End MoreValidation.

(** X3 on the stand-in kernel: [[10; 350]] with [[-90; 45]] is
    converted, and an empty [ra] is refused. *)
Lemma ang2ipix_vector_accepted_iff_witness :
  ang2ipix standin_qlsc (PySeq [10; 350]%Q) (PySeq [-90; 45]%Q) None
  = Ok (OArr [0; 5])
  /\ raises_ValueError (ang2ipix standin_qlsc (PySeq []) (PySeq [0%Q]) None).
Proof.
  split.
  - rewrite (proj1 (ang2ipix_vector_accepted_iff standin_qlsc
                      [10; 350]%Q [-90; 45]%Q) eq_refl).
    reflexivity.
  - apply (proj2 (ang2ipix_vector_accepted_iff standin_qlsc [] [0%Q]) eq_refl).
Defined.

Section MoreFaces.

Context {K : Q3C}.

(** X4.  A pixel id outside [0, nbins) is refused with a [ValueError] by
    [ipix2ang], by [ipix2polygon] (whatever [duplicate_endpoint]) and,
    when it is not 0, by [face_number]: none of them hands it to the
    kernel. *)
Theorem out_of_range_pixel_refused (self : QLSC) (ipix : Z) (dup : bool) :
  ~ 0 <= ipix < nbins self ->
  raises_ValueError (ipix2ang self ipix)
  /\ raises_ValueError (ipix2polygon self (Some ipix) dup)
  /\ (ipix <> 0 ->
      raises_ValueError (face_number self PyNone PyNone (Some ipix))).
Proof.
  intros Hout.
  assert (E : negb ((0 <=? ipix) && (ipix <? nbins self)) = true).
  { destruct (0 <=? ipix) eqn:E1, (ipix <? nbins self) eqn:E2;
      try reflexivity.
    exfalso. apply Hout. lia. }
  split; [| split].
  - unfold ipix2ang. rewrite E. eexists. reflexivity.
  - unfold ipix2polygon. rewrite E. eexists. reflexivity.
  - intros Hnz. unfold face_number, truthy_ipix.
    replace (ipix =? 0) with false by (symmetry; apply Z.eqb_neq; exact Hnz).
    cbn [is_None negb orb andb]. rewrite E. eexists. reflexivity.
Qed.

(** X5.  For a pixel id in range whose kernel face is one of 0..5,
    [ipix2polygon] returns, in this order, the kernel's angles of the four
    corners [(x,y)], [(x+d,y)], [(x+d,y+d)], [(x,y+d)] of the square of
    side [d = 2/nside] whose lower left corner [(x,y)] is what [ipix2xy]
    gives for the pixel. *)
Theorem ipix2polygon_corners (self : QLSC) (ipix : Z) (dup : bool)
    (f : Z) (x y : Q) :
  0 <= ipix < nbins self ->
  ipix2xy self ipix = Ok (f, x, y) ->
  0 <= f <= 5 ->
  let d := (2 / inject_Z (nside self))%Q in
  ipix2polygon self (Some ipix) dup
  = Ok (AArr [ q3c_xy2ang x y f; q3c_xy2ang (x + d) y f;
               q3c_xy2ang (x + d) (y + d) f; q3c_xy2ang x (y + d) f ]).
Proof.
  intros Hi Exy Hf d. unfold ipix2polygon.
  replace (0 <=? ipix) with true by (symmetry; apply Z.leb_le; lia).
  replace (ipix <? nbins self) with true by (symmetry; apply Z.ltb_lt; lia).
  cbn [andb negb]. rewrite Exy. cbn [bind]. unfold xy2ang.
  replace (0 <=? f) with true by (symmetry; apply Z.leb_le; lia).
  replace (f <=? 5) with true by (symmetry; apply Z.leb_le; lia).
  destruct dup; reflexivity.
Qed.

(** X6.  [xy2ang] checks its arguments before anything is converted: no
    face number, a face number outside 0..5, a scalar pair together with
    [points], or a missing [x] or [y] without [points], each raise a
    [ValueError]. *)
Theorem xy2ang_argument_errors (self : QLSC) :
  (forall x y pts, raises_ValueError (xy2ang self None x y pts))
  /\ (forall f x y pts,
        ~ 0 <= f <= 5 -> raises_ValueError (xy2ang self (Some f) x y pts))
  /\ (forall f x y pts,
        raises_ValueError (xy2ang self (Some f) (Some x) (Some y) (Some pts)))
  /\ (forall f x y,
        x = None \/ y = None ->
        raises_ValueError (xy2ang self (Some f) x y None)).
Proof.
  split; [| split; [| split]].
  - intros x y pts. eexists. reflexivity.
  - intros f x y pts Hf. unfold xy2ang.
    destruct (0 <=? f) eqn:E1, (f <=? 5) eqn:E2; cbn [andb negb];
      try (eexists; reflexivity).
    exfalso. apply Hf. lia.
  - intros f x y pts. unfold xy2ang.
    destruct (negb ((0 <=? f) && (f <=? 5))); eexists; reflexivity.
  - intros f x y Hmiss. unfold xy2ang.
    destruct (negb ((0 <=? f) && (f <=? 5))); [eexists; reflexivity |].
    destruct Hmiss as [-> | ->]; [| destruct x]; eexists; reflexivity.
Qed.

(** X7.  [xy2ipix] is [ang2ipix] after [xy2ang]: on a valid face it
    raises a [ValueError] when both coordinates are outside [-1,1], and
    otherwise returns the single pixel id that [ang2ipix] gives for the
    kernel's angles of [(x, y)]. *)
Theorem xy2ipix_composes (self : QLSC) (f : Z) (x y : Q) :
  0 <= f <= 5 ->
  (Qin_closed (-1) x 1 = false -> Qin_closed (-1) y 1 = false ->
   raises_ValueError (xy2ipix self (Some f) (Some x) (Some y)))
  /\ (Qin_closed (-1) x 1 = true \/ Qin_closed (-1) y 1 = true ->
      xy2ipix self (Some f) (Some x) (Some y)
      = ang2ipix self (PyNum (fst (q3c_xy2ang x y f)))
                      (PyNum (snd (q3c_xy2ang x y f))) None
      /\ xy2ipix self (Some f) (Some x) (Some y)
         = Ok (OInt (scalar_ipix self (fst (q3c_xy2ang x y f))
                                      (snd (q3c_xy2ang x y f))))).
Proof.
  intros Hf. unfold xy2ipix. rewrite (xy2ang_scalar self f x y Hf). split.
  - intros -> ->. eexists. reflexivity.
  - intros Hin.
    replace (negb (Qin_closed (-1) x 1) && negb (Qin_closed (-1) y 1))
      with false by (destruct Hin as [-> | ->]; cbn;
                     [| rewrite andb_false_r]; reflexivity).
    cbn [bind]. destruct (q3c_xy2ang x y f) as [ra dec]. cbn [fst snd].
    split; [reflexivity |]. apply ang2ipix_scalar_ipix.
Qed.

(** X8.  With [ra] and [dec] numbers and no pixel id (or the pixel id 0,
    which is not looked at), [face_number] raises a [ValueError] when
    [dec] is outside [-90,90] or [ra] is outside [-360,360], and otherwise
    returns the kernel's face of the pair as given: a negative [ra] down
    to -360 is passed on unchanged. *)
Theorem face_number_of_angles (self : QLSC) (ra dec : Q) (ipix : option Z) :
  truthy_ipix ipix = false ->
  (Qin_closed (-90) dec 90 && Qin_closed (-360) ra 360 = true ->
   face_number self (PyNum ra) (PyNum dec) ipix
   = Ok (q3c_facenum (_hprm self) ra dec))
  /\ (Qin_closed (-90) dec 90 && Qin_closed (-360) ra 360 = false ->
      raises_ValueError (face_number self (PyNum ra) (PyNum dec) ipix)).
Proof.
  intros Hi. unfold face_number. rewrite Hi.
  cbn [is_None negb orb andb in_closed bind]. split.
  - intros Hok. apply andb_true_iff in Hok. destruct Hok as [-> ->].
    reflexivity.
  - intros Hout. destruct (Qin_closed (-90) dec 90); cbn [negb bind];
      [| eexists; reflexivity].
    cbn [andb] in Hout. rewrite Hout. eexists. reflexivity.
Qed.

(** X9.  For a depth in [1,30], [ipixcenter] returns a pixel id of the
    block of [4^depth] ids that holds the kernel's pixel id of the
    position (shifting right by [2*depth] gives the same value for both),
    and within the block it is the id at offset [4^(depth-1) - 1]. *)
Theorem ipixcenter_same_block (self : QLSC) (ra dec : Q) (depth : Z) :
  1 <= depth <= 30 ->
  exists c,
    ipixcenter self ra dec depth = Ok c
    /\ Z.shiftr c (2 * depth)
       = Z.shiftr (q3c_ang2ipix (_hprm self) ra dec) (2 * depth)
    /\ c mod 4 ^ depth = 4 ^ (depth - 1) - 1.
Proof.
  intros Hd. unfold ipixcenter.
  replace (1 <=? depth) with true by (symmetry; apply Z.leb_le; lia).
  replace (depth <=? 30) with true by (symmetry; apply Z.leb_le; lia).
  cbn [andb negb]. eexists. split; [reflexivity |].
  set (v := q3c_ang2ipix (_hprm self) ra dec).
  rewrite center_of_eq by lia.
  pose proof (center_offset_small depth ltac:(lia)) as Hc.
  assert (E4 : 4 ^ depth = 2 ^ (2 * depth)).
  { change 4 with (2 ^ 2). rewrite <- Z.pow_mul_r by lia. reflexivity. }
  assert (Eoff : Z.shiftl 1 (2 * (depth - 1)) - 1 = 4 ^ (depth - 1) - 1).
  { rewrite Z.shiftl_1_l. change 4 with (2 ^ 2).
    rewrite <- Z.pow_mul_r by lia. reflexivity. }
  set (c := Z.shiftl 1 (2 * (depth - 1)) - 1) in *.
  rewrite E4. set (b := 2 ^ (2 * depth)) in *.
  assert (Hb : 0 < b) by lia.
  split.
  - rewrite !Z.shiftr_div_pow2 by lia. fold b.
    rewrite (Z.add_comm (v / b * b) c), Z.div_add by lia.
    rewrite (Z.div_small c b) by lia. lia.
  - rewrite (Z.add_comm (v / b * b) c), Z.mod_add by lia.
    rewrite Z.mod_small by lia. exact Eoff.
Qed.

End MoreFaces.

(** X4 on the six-pixel scheme of the stand-in kernel: pixel id 6. *)
Lemma out_of_range_pixel_refused_witness :
  raises_ValueError (ipix2ang standin_qlsc 6)
  /\ raises_ValueError (ipix2polygon standin_qlsc (Some 6) false)
  /\ raises_ValueError (face_number standin_qlsc PyNone PyNone (Some 6)).
Proof.
  destruct (out_of_range_pixel_refused standin_qlsc 6 false) as (H1 & H2 & H3).
  - vm_compute. intros [_ Hlt]. discriminate Hlt.
  - split; [exact H1 |]. split; [exact H2 |]. apply H3. discriminate.
Defined.

(** X5 on the stand-in kernel: the polygon of pixel 3. *)
Lemma ipix2polygon_corners_witness :
  ipix2polygon standin_qlsc (Some 3) true
  = Ok (AArr [ q3c_xy2ang (-1) (-1) 3; q3c_xy2ang (-1 + 2 / 1) (-1) 3;
               q3c_xy2ang (-1 + 2 / 1) (-1 + 2 / 1) 3;
               q3c_xy2ang (-1) (-1 + 2 / 1) 3 ]%Q).
Proof.
  apply (ipix2polygon_corners standin_qlsc 3 true 3 (-1)%Q (-1)%Q).
  - vm_compute. split; [discriminate | reflexivity].
  - reflexivity.
  - lia.
Defined.

(** X7 on the stand-in kernel: face 2 at [(0, 5)], where [x] alone is
    in range. *)
Lemma xy2ipix_composes_witness :
  exists i, xy2ipix standin_qlsc (Some 2) (Some 0%Q) (Some 5%Q) = Ok (OInt i).
Proof.
  eexists.
  apply (proj2 (xy2ipix_composes standin_qlsc 2 0%Q 5%Q ltac:(lia))).
  left. reflexivity.
Defined.

(** X8 on the stand-in kernel: [ra = -30] is accepted, [ra = 400] is
    refused. *)
Lemma face_number_of_angles_witness :
  face_number standin_qlsc (PyNum (-30)) (PyNum 10) None
  = Ok (q3c_facenum (_hprm standin_qlsc) (-30) 10)
  /\ raises_ValueError (face_number standin_qlsc (PyNum 400) (PyNum 10) None).
Proof.
  split.
  - apply (proj1 (face_number_of_angles standin_qlsc (-30) 10 None eq_refl)).
    reflexivity.
  - apply (proj2 (face_number_of_angles standin_qlsc 400 10 None eq_refl)).
    reflexivity.
Defined.

(** X9 on the stand-in kernel, at depth 3. *)
Lemma ipixcenter_same_block_witness :
  exists c,
    ipixcenter standin_qlsc 200 10 3 = Ok c
    /\ Z.shiftr c (2 * 3)
       = Z.shiftr (q3c_ang2ipix (_hprm standin_qlsc) 200 10) (2 * 3)
    /\ c mod 4 ^ 3 = 4 ^ (3 - 1) - 1.
Proof.
  apply (ipixcenter_same_block standin_qlsc 200 10 3). lia.
Defined.

Section RightAscension.

Context {K : Q3C}.

Variable q3c_ang2ipix_xy : Hprm -> Q -> Q -> IpixXY.

(** X10.  The three conversions from angles treat a right ascension
    above 360 differently, the declination being in [-90,90]:
    [ang2ipix] normalizes the pair and converts it, [ang2ipix_xy] hands
    the pair to the kernel as it is, and [face_number] raises a
    [ValueError].  [ang2ipix_xy] checks the declination only: outside
    [-90,90] it raises a [ValueError]. *)
Theorem right_ascension_above_360 (self : QLSC) (ra dec : Q)
    (pts : option (list (Q * Q))) :
  Qle_bool ra 360 = false ->
  (Qin_closed (-90) dec 90 = true ->
   ang2ipix self (PyNum ra) (PyNum dec) None
   = Ok (OInt (q3c_ang2ipix (_hprm self)
                 (fst (_normalize_ang (ra, dec)))
                 (snd (_normalize_ang (ra, dec)))))
   /\ ang2ipix_xy q3c_ang2ipix_xy self (PyNum ra) (PyNum dec) pts
      = Ok (q3c_ang2ipix_xy (_hprm self) ra dec)
   /\ raises_ValueError (face_number self (PyNum ra) (PyNum dec) None))
  /\ (Qin_closed (-90) dec 90 = false ->
      raises_ValueError
        (ang2ipix_xy q3c_ang2ipix_xy self (PyNum ra) (PyNum dec) pts)).
Proof.
  intros Hra.
  assert (H0 : Qin_closed 0 ra 360 = false)
    by (unfold Qin_closed; rewrite Hra; apply andb_false_r).
  assert (H1 : Qin_closed (-360) ra 360 = false)
    by (unfold Qin_closed; rewrite Hra; apply andb_false_r).
  split.
  - intros Hdec. split; [| split].
    + rewrite ang2ipix_scalar, Hdec, H0. reflexivity.
    + unfold ang2ipix_xy. cbn [in_closed bind]. rewrite Hdec. reflexivity.
    + unfold face_number. cbn [truthy_ipix is_None negb orb andb in_closed bind].
      rewrite Hdec. cbn [negb bind]. rewrite H1. eexists. reflexivity.
  - intros Hdec. unfold ang2ipix_xy. cbn [in_closed bind]. rewrite Hdec.
    eexists. reflexivity.
Qed.

End RightAscension.

(** X10 on the stand-in kernel, at [(400, 10)]. *)
Lemma right_ascension_above_360_witness :
  ang2ipix standin_qlsc (PyNum 400) (PyNum 10) None = Ok (OInt 6)
  /\ raises_ValueError (face_number standin_qlsc (PyNum 400) (PyNum 10) None).
Proof.
  destruct (right_ascension_above_360
              (fun h ra dec => {| xy_facenum := 0; xy_ipix := 0;
                                  xy_x := ra; xy_y := dec |})
              standin_qlsc 400 10 None eq_refl) as [Hin _].
  destruct (Hin eq_refl) as (Ha & _ & Hf).
  split; [rewrite Ha; reflexivity | exact Hf].
Defined.

(** * Further properties of [QLSCIndex] *)

Lemma execute_insert_rows (c : Connection) (r : Row) :
  usable c ->
  exists c1, execute_insert c r = Ok c1 /\ usable c1
    /\ committed c1 = committed c /\ pending c1 = pending c ++ [r]
    /\ ncommits c1 = ncommits c.
Proof.
  intros [Hc Ht]. unfold execute_insert. rewrite Hc, Ht. cbn [negb].
  eexists. split; [reflexivity |]. unfold usable. cbn. auto.
Qed.

Lemma commit_rows (c : Connection) :
  usable c ->
  exists c1, commit c = Ok c1 /\ usable c1
    /\ committed c1 = committed c ++ pending c /\ pending c1 = []
    /\ ncommits c1 = ncommits c + 1.
Proof.
  intros [Hc Ht]. unfold commit. rewrite Hc.
  eexists. split; [reflexivity |]. unfold usable. cbn. auto.
Qed.

(** The loop of [add_points] over a run of rows that evaluate, followed
    by anything: where the loop stands after the run.  The rows of the
    open transaction and of the run split into those committed since
    ([kept]) and those still pending ([dropped] by a rollback). *)
Lemma insert_loop_prefix (rows : list Row) :
  forall (c : Connection) (count : Z) (tail : list (Result Row)),
    usable c -> 0 <= count <= 50000 ->
    Z.of_nat (List.length (pending c)) = count ->
    exists c' kept,
      insert_loop c count (map Ok rows ++ tail)
      = insert_loop c' ((count + Z.of_nat (List.length rows)) mod 50001) tail
      /\ usable c'
      /\ pending c ++ rows = kept ++ pending c'
      /\ committed c' = committed c ++ kept
      /\ Z.of_nat (List.length (pending c'))
         = (count + Z.of_nat (List.length rows)) mod 50001.
Proof.
  induction rows as [| r rows IH]; intros c count tail Hu Hcount Hp.
  - exists c, []. cbn [map app List.length Z.of_nat].
    rewrite Z.add_0_r, Z.mod_small by lia.
    rewrite !app_nil_r. repeat split; try apply Hu; assumption.
  - cbn [map app insert_loop].
    destruct (execute_insert_rows c r Hu) as (c1 & -> & Hu1 & Hc1 & Hp1 & _).
    destruct (count + 1 >? 50000) eqn:E.
    + assert (Hfull : count = 50000) by lia.
      destruct (commit_rows c1 Hu1) as (c2 & -> & Hu2 & Hc2 & Hp2 & _).
      destruct (IH c2 0 tail Hu2 ltac:(lia) ltac:(rewrite Hp2; reflexivity))
        as (c' & kept & Hloop & Hu' & Hsplit & Hcomm & Hlen).
      exists c', (pending c ++ [r] ++ kept).
      replace ((count + Z.of_nat (List.length (r :: rows))) mod 50001)
        with ((0 + Z.of_nat (List.length rows)) mod 50001).
      2:{ replace (count + Z.of_nat (List.length (r :: rows)))
            with (0 + Z.of_nat (List.length rows) + 1 * 50001)
            by (cbn [List.length]; lia).
          rewrite Z.mod_add by lia. reflexivity. }
      split; [exact Hloop |]. split; [exact Hu' |].
      split; [| split; [| exact Hlen]].
      * rewrite Hp2 in Hsplit. cbn [app] in Hsplit.
        rewrite Hsplit, <- !app_assoc. reflexivity.
      * rewrite Hcomm, Hc2, Hc1, Hp1, <- !app_assoc. reflexivity.
    + destruct (IH c1 (count + 1) tail Hu1 ltac:(lia)
                  ltac:(rewrite Hp1, length_app; cbn [List.length]; lia))
        as (c' & kept & Hloop & Hu' & Hsplit & Hcomm & Hlen).
      exists c', kept.
      replace (count + Z.of_nat (List.length (r :: rows)))
        with (count + 1 + Z.of_nat (List.length rows))
        by (cbn [List.length]; lia).
      split; [exact Hloop |]. split; [exact Hu' |].
      split; [| split; [| exact Hlen]].
      * rewrite <- Hsplit, Hp1, <- app_assoc. reflexivity.
      * rewrite Hcomm, Hc1. reflexivity.
Qed.

Lemma indexed_rows_cons (a d : Q) (ra dec : list Q) :
  indexed_rows (a :: ra) (Some (d :: dec))
  = Ok (Some a, Some d) :: indexed_rows ra (Some dec).
Proof.
  unfold indexed_rows. cbn [List.length seq map nth_error].
  rewrite <- seq_shift, map_map. reflexivity.
Qed.

(** [dec] shorter than [ra]: the rows evaluate up to the end of [dec],
    and the next one raises [IndexError]. *)
Lemma indexed_rows_short (ra dec : list Q) :
  (List.length dec < List.length ra)%nat ->
  exists rest,
    indexed_rows ra (Some dec)
    = map Ok (rows_of (combine ra dec)) ++ Raise IndexError :: rest.
Proof.
  revert dec. induction ra as [| a ra IH]; intros dec Hlen.
  - cbn in Hlen. lia.
  - destruct dec as [| d dec].
    + eexists. unfold indexed_rows. cbn. reflexivity.
    + destruct (IH dec ltac:(cbn in Hlen; lia)) as (rest & E).
      exists rest. rewrite indexed_rows_cons, E. reflexivity.
Qed.

(** Only the first [len(ra)] values of [dec] are read. *)
Lemma indexed_rows_firstn (ra dec : list Q) :
  indexed_rows ra (Some (firstn (List.length ra) dec))
  = indexed_rows ra (Some dec).
Proof.
  revert dec. induction ra as [| a ra IH]; intros dec.
  - reflexivity.
  - destruct dec as [| d dec]; [reflexivity |].
    cbn [List.length firstn]. rewrite !indexed_rows_cons, IH. reflexivity.
Qed.

Section MoreOfTheStore.

Context {K : Q3C} {H : Host}.

(** X11.  On a store that statements can run on, [add_point] appends
    the point as the last row, commits (nothing is left in the open
    transaction) and makes [number_of_points] one larger. *)
Theorem add_point_appends (self : QLSCIndex) (c : Connection)
    (ra dec : option Q) :
  data_source self = DSConnection c ->
  usable c ->
  exists c',
    add_point self ra dec = (Ok tt, set_source self (DSConnection c'))
    /\ usable c'
    /\ committed c' = visible c ++ [(ra, dec)] /\ pending c' = []
    /\ ncommits c' = ncommits c + 1
    /\ number_of_points (set_source self (DSConnection c'))
       = Ok (Z.of_nat (List.length (visible c)) + 1).
Proof.
  intros Hds Hu.
  destruct (execute_insert_rows c (ra, dec) Hu)
    as (c1 & E1 & Hu1 & Hc1 & Hp1 & Hn1).
  destruct (commit_rows c1 Hu1) as (c2 & E2 & Hu2 & Hc2 & Hp2 & Hn2).
  exists c2. unfold add_point. rewrite Hds, E1.
  unfold with_transaction. rewrite E2.
  split; [reflexivity |]. split; [exact Hu2 |].
  assert (Hrows : committed c2 = visible c ++ [(ra, dec)])
    by (rewrite Hc2, Hc1, Hp1; unfold visible; apply app_assoc).
  split; [exact Hrows |]. split; [exact Hp2 |]. split; [lia |].
  unfold number_of_points, data_source, select_all.
  cbn [_data_source set_source].
  destruct Hu2 as [-> ->]. cbn [negb bind]. unfold visible at 1.
  rewrite Hp2, app_nil_r, Hrows, length_app. cbn [List.length].
  rewrite Nat2Z.inj_add. reflexivity.
Qed.

(** X12.  Insert then query: on a new index, [add_points] of a
    non-empty sequence of pairs succeeds, [number_of_points] is then the
    number of pairs, and [radial_query] returns those of the pairs, in
    their order, that its two tests select. *)
Theorem add_points_then_radial_query (q : QLSC) (pts : list (Q * Q))
    (center_ra center_dec radius : Q) :
  pts <> [] ->
  exists idx idx',
    QLSCIndex_init q = (Ok tt, idx)
    /\ add_points idx None None (Some pts) = (Ok tt, idx')
    /\ number_of_points idx' = Ok (Z.of_nat (List.length pts))
    /\ radial_query idx' center_ra center_dec radius
       = Ok (rows_of (filter (selected q center_ra center_dec radius) pts)).
Proof.
  intros Hne.
  destruct (QLSCIndex_init_usable q) as (c & Einit & Hu & Hv & _).
  set (idx := {| qlsc := q; _data_source := DSConnection c |}) in *.
  destruct (insert_loop_commits (rows_of pts) c 0 Hu ltac:(lia))
    as (c1 & Hloop & Hu1 & Hv1 & _).
  destruct (commit_usable c1 Hu1) as (c2 & Hcommit & Hu2 & Hv2 & _).
  exists idx, (set_source idx (DSConnection c2)).
  split; [exact Einit |].
  assert (Hrows : visible c2 = rows_of pts)
    by (rewrite Hv2, Hv1, Hv; reflexivity).
  split; [| split].
  - unfold add_points. destruct pts as [| p pts]; [congruence |].
    cbn [truthy orb andb negb]. unfold idx at 1. unfold data_source.
    cbn [_data_source]. rewrite tuple_rows_ok, Hloop.
    unfold with_transaction. rewrite Hcommit. reflexivity.
  - unfold number_of_points, data_source, select_all.
    cbn [_data_source set_source].
    destruct Hu2 as [-> ->]. cbn [negb bind].
    rewrite Hrows. unfold rows_of. rewrite length_map. reflexivity.
  - unfold radial_query, data_source, select_all.
    cbn [_data_source set_source].
    destruct Hu2 as [-> ->]. cbn [negb bind].
    rewrite Hrows, scan_selected. reflexivity.
Qed.

Lemma scan_null (self : QLSCIndex) (center_ra center_dec radius : Q)
    (rows : list Row) :
  existsb has_null rows = true ->
  forall matches,
    raises_ValueError (scan self rows center_ra center_dec radius matches).
Proof.
  induction rows as [| [ra dec] rows IH]; cbn [existsb]; [discriminate |].
  intros Hnull matches. cbn [scan].
  destruct ra as [ra |]; [destruct dec as [dec |] |].
  - rewrite _radial_match_selected. cbn [bind]. apply IH. exact Hnull.
  - eexists. reflexivity.
  - eexists. reflexivity.
Qed.

(** X13.  A row with a [NULL] in it, as [add_point()] with its default
    arguments stores one, makes every later [radial_query] raise a
    [ValueError]: the scan calls [ang2ipix] on the row's [None]. *)
Theorem radial_query_raises_on_null (self : QLSCIndex) (c : Connection)
    (center_ra center_dec radius : Q) :
  data_source self = DSConnection c ->
  usable c ->
  (existsb has_null (visible c) = true ->
   raises_ValueError (radial_query self center_ra center_dec radius))
  /\ exists c',
       add_point self None None = (Ok tt, set_source self (DSConnection c'))
       /\ raises_ValueError
            (radial_query (set_source self (DSConnection c'))
               center_ra center_dec radius).
Proof.
  intros Hds Hu.
  assert (Hq : forall idx c0,
            data_source idx = DSConnection c0 -> usable c0 ->
            existsb has_null (visible c0) = true ->
            raises_ValueError (radial_query idx center_ra center_dec radius)).
  { intros idx c0 Hds0 [Hc Ht] Hnull. unfold radial_query, select_all.
    rewrite Hds0, Hc, Ht. cbn [negb bind]. apply scan_null. exact Hnull. }
  split; [apply (Hq self c Hds Hu) |].
  destruct (execute_insert_rows c (None, None) Hu)
    as (c1 & E1 & Hu1 & Hc1 & Hp1 & _).
  destruct (commit_rows c1 Hu1) as (c2 & E2 & Hu2 & Hc2 & Hp2 & _).
  exists c2. split.
  - unfold add_point. rewrite Hds, E1. unfold with_transaction.
    rewrite E2. reflexivity.
  - apply (Hq (set_source self (DSConnection c2)) c2 eq_refl Hu2).
    unfold visible.
    rewrite Hc2, Hp1, Hp2, app_nil_r, app_assoc, existsb_app.
    cbn [existsb has_null]. apply orb_true_r.
Qed.

(** X14.  [add_points] raises a [ValueError], and leaves the index as it
    was, when nothing it is given holds a point, when [ra], [dec] and
    [points] all hold some, and when [points] is not given while [ra] or
    [dec] is missing or empty. *)
Theorem add_points_argument_errors (self : QLSCIndex) :
  (forall ra dec pts,
     truthy ra || truthy dec || truthy pts = false ->
     exists msg, add_points self ra dec pts = (Raise (ValueError msg), self))
  /\ (forall ra dec pts,
        truthy ra && truthy dec && truthy pts = true ->
        exists msg, add_points self ra dec pts
                    = (Raise (ValueError msg), self))
  /\ (forall ra dec,
        truthy ra && truthy dec = false ->
        exists msg, add_points self ra dec None
                    = (Raise (ValueError msg), self)).
Proof.
  split; [| split].
  - intros ra dec pts E. unfold add_points. rewrite E.
    eexists. reflexivity.
  - intros ra dec pts E. unfold add_points. rewrite E.
    destruct (negb (truthy ra || truthy dec || truthy pts));
      eexists; reflexivity.
  - intros ra dec E. unfold add_points. rewrite E.
    cbn [andb negb].
    destruct (negb (truthy ra || truthy dec || truthy None));
      eexists; reflexivity.
Qed.

(** X15.  When [dec] is shorter than [ra], [add_points] raises
    [IndexError] at the first missing [dec] and rolls back: of the
    [len(dec)] rows inserted until then, the last [len(dec) mod 50001] are
    dropped and the ones before, already committed by the loop, stay in
    the table.  With at most 50,000 values in [dec] the table is left as
    it was. *)
Theorem add_points_short_dec (self : QLSCIndex) (c : Connection)
    (ra dec : list Q) :
  data_source self = DSConnection c ->
  usable c ->
  pending c = [] ->
  dec <> [] ->
  (List.length dec < List.length ra)%nat ->
  exists c' kept dropped,
    add_points self (Some ra) (Some dec) None
    = (Raise IndexError, set_source self (DSConnection c'))
    /\ rows_of (combine ra dec) = kept ++ dropped
    /\ Z.of_nat (List.length dropped)
       = Z.of_nat (List.length dec) mod 50001
    /\ visible c' = visible c ++ kept
    /\ pending c' = []
    /\ (Z.of_nat (List.length dec) <= 50000 -> visible c' = visible c).
Proof.
  intros Hds Hu Hp Hdec Hlen.
  destruct (indexed_rows_short ra dec Hlen) as (rest & Erows).
  destruct (insert_loop_prefix (rows_of (combine ra dec)) c 0
              (Raise IndexError :: rest) Hu ltac:(lia)
              ltac:(rewrite Hp; reflexivity))
    as (c1 & kept & Hloop & Hu1 & Hsplit & Hcomm & Hpend).
  assert (Hn : List.length (rows_of (combine ra dec)) = List.length dec).
  { unfold rows_of. rewrite length_map, length_combine. lia. }
  rewrite Hn, Z.add_0_l in Hloop, Hpend.
  rewrite Hp in Hsplit. cbn [app] in Hsplit.
  exists (rollback c1), kept, (pending c1).
  assert (Hvis : visible (rollback c1) = visible c ++ kept).
  { unfold visible. cbn [rollback committed pending].
    rewrite Hcomm, Hp, !app_nil_r. reflexivity. }
  split; [| split; [exact Hsplit | split; [exact Hpend |
           split; [exact Hvis | split; [reflexivity |]]]]].
  - unfold add_points.
    destruct ra as [| a ra]; [cbn in Hlen; lia |].
    destruct dec as [| d dec]; [congruence |].
    cbn [truthy orb andb negb]. rewrite Hds, Erows, Hloop.
    cbn [insert_loop with_transaction]. reflexivity.
  - intros Hsmall. rewrite Hvis.
    rewrite Z.mod_small in Hpend by lia.
    assert (Hk : List.length kept = 0%nat).
    { apply (f_equal (@List.length Row)) in Hsplit.
      rewrite length_app, Hn in Hsplit. lia. }
    destruct kept; [apply app_nil_r | discriminate].
Qed.

(** X16.  Values of [dec] beyond the length of [ra] are never read: for
    a non-empty [ra], [add_points] does the same with [dec] as with its
    first [len(ra)] values. *)
Theorem add_points_ignores_surplus_dec (self : QLSCIndex) (ra dec : list Q)
    (points : option (list (Q * Q))) :
  ra <> [] ->
  add_points self (Some ra) (Some dec) points
  = add_points self (Some ra) (Some (firstn (List.length ra) dec)) points.
Proof.
  intros Hra. destruct ra as [| a ra]; [congruence |].
  unfold add_points.
  assert (Et : truthy (Some (firstn (List.length (a :: ra)) dec))
               = truthy (Some dec))
    by (destruct dec; reflexivity).
  rewrite Et. cbn [truthy]. rewrite indexed_rows_firstn. reflexivity.
Qed.

End MoreOfTheStore.

(** X11 on the stand-in objects: one point into the empty store. *)
Lemma add_point_appends_witness :
  exists c',
    add_point (standin_index []) (Some 1%Q) (Some 2%Q)
    = (Ok tt, set_source (standin_index []) (DSConnection c'))
    /\ usable c'
    /\ committed c' = [] ++ [(Some 1%Q, Some 2%Q)] /\ pending c' = []
    /\ ncommits c' = 0 + 1
    /\ number_of_points (set_source (standin_index []) (DSConnection c'))
       = Ok (0 + 1).
Proof.
  apply (add_point_appends (standin_index []) (connection_with [])
           (Some 1%Q) (Some 2%Q) eq_refl (connection_with_usable [])).
Defined.

(** X12 on the stand-in kernel: three points, one of them in the disc
    of radius 1 around (180, 0). *)
Lemma add_points_then_radial_query_witness :
  exists idx idx',
    QLSCIndex_init standin_qlsc = (Ok tt, idx)
    /\ add_points idx None None
         (Some [ (10, 0); (180.25, 0.25); (181, 3) ]%Q) = (Ok tt, idx')
    /\ number_of_points idx' = Ok 3
    /\ radial_query idx' 180 0 1 = Ok (rows_of [ (180.25, 0.25) ]%Q).
Proof.
  apply (add_points_then_radial_query standin_qlsc
           [ (10, 0); (180.25, 0.25); (181, 3) ]%Q 180 0 1).
  discriminate.
Defined.

(** X13 on the stand-in objects: a store whose second row has no
    declination. *)
Lemma radial_query_raises_on_null_witness :
  raises_ValueError
    (radial_query (standin_index [ (Some 1%Q, Some 2%Q); (Some 3%Q, None) ])
       180 0 1).
Proof.
  apply (proj1 (radial_query_raises_on_null
                  (standin_index [ (Some 1%Q, Some 2%Q); (Some 3%Q, None) ])
                  (connection_with [ (Some 1%Q, Some 2%Q); (Some 3%Q, None) ])
                  180 0 1 eq_refl (connection_with_usable _))).
  reflexivity.
Defined.

(** X15 on the stand-in objects: 60,000 right ascensions with 55,000
    declinations.  The last 4,999 rows inserted are dropped; the 50,001
    before them stay. *)
Lemma add_points_short_dec_witness :
  exists c' kept dropped,
    add_points (standin_index [])
      (Some (repeat 0%Q (Z.to_nat 60000)))
      (Some (repeat 0%Q (Z.to_nat 55000))) None
    = (Raise IndexError, set_source (standin_index []) (DSConnection c'))
    /\ rows_of (combine (repeat 0%Q (Z.to_nat 60000))
                        (repeat 0%Q (Z.to_nat 55000))) = kept ++ dropped
    /\ Z.of_nat (List.length dropped) = 4999
    /\ visible c' = kept.
Proof.
  destruct (add_points_short_dec (standin_index []) (connection_with [])
              (repeat 0%Q (Z.to_nat 60000)) (repeat 0%Q (Z.to_nat 55000)))
    as (c' & kept & dropped & Hadd & Hsplit & Hlen & Hvis & _).
  - reflexivity.
  - apply connection_with_usable.
  - reflexivity.
  - intros E. apply (f_equal (@List.length Q)) in E.
    rewrite repeat_length in E. cbn [List.length] in E. lia.
  - rewrite !repeat_length. lia.
  - exists c', kept, dropped.
    split; [exact Hadd |]. split; [exact Hsplit |]. split; [| exact Hvis].
    rewrite Hlen, repeat_length, Z2Nat.id by lia. reflexivity.
Defined.

(** X16 on the stand-in objects: two right ascensions, three
    declinations. *)
Lemma add_points_ignores_surplus_dec_witness :
  add_points (standin_index []) (Some [1; 2]%Q) (Some [3; 4; 5]%Q) None
  = add_points (standin_index []) (Some [1; 2]%Q) (Some [3; 4]%Q) None.
Proof.
  apply (add_points_ignores_surplus_dec (standin_index [])
           [1; 2]%Q [3; 4; 5]%Q None).
  discriminate.
Defined.

Section MoreOfTheSetter.

Context {K : Q3C} {H : Host}.

Lemma _init_sqlite_db_keeps_connection (self : QLSCIndex) :
  is_connection (_data_source self) = true ->
  is_connection (_data_source (snd (_init_sqlite_db self))) = true.
Proof.
  unfold _init_sqlite_db. destruct (_data_source self) eqn:E;
    try discriminate.
  intros _. destruct (create_table c); cbn; [reflexivity |].
  rewrite E. reflexivity.
Qed.

(** X17.  Whatever is assigned to [data_source] of an index on an SQLite
    connection, the data source is an SQLite connection afterwards.
    Every value that is neither a string nor a path raises
    [NameError]: an array, a table or a data frame is never installed.
    Assigning a connection closes the current one before it raises. *)
Theorem data_source_stays_connection (self : QLSCIndex) (c : Connection)
    (v : NewValue) :
  data_source self = DSConnection c ->
  is_connection (data_source (snd (data_source_set self v))) = true
  /\ ((forall s, v <> NVStr s) -> (forall s, v <> NVPath s) ->
      fst (data_source_set self v) = Raise (NameError "numpy"))
  /\ (forall c0,
        data_source_set self (NVConnection c0)
        = (Raise (NameError "numpy"),
           set_source self (DSConnection (close c)))).
Proof.
  unfold data_source. intros Hds.
  split; [| split].
  - unfold data_source_set. rewrite Hds.
    destruct v; cbn [fst snd]; rewrite ?numpy_is_unbound; cbn [snd];
      try (rewrite Hds; reflexivity); try reflexivity.
    destruct (String.eqb s ":memory:"); [reflexivity |].
    destruct (sqlite3_connect s); cbn zeta.
    + destruct (negb (os_path_exists
                        (if String.prefix "file:" s then urlparse_path s
                         else s))).
      * apply _init_sqlite_db_keeps_connection. reflexivity.
      * reflexivity.
    + destruct (negb (os_path_exists
                        (if String.prefix "file:" s then urlparse_path s
                         else s))); cbn [snd]; rewrite Hds; reflexivity.
  - intros Hstr Hpath. unfold data_source_set. rewrite Hds.
    destruct v; try (rewrite numpy_is_unbound; reflexivity).
    + exfalso. apply (Hstr s). reflexivity.
    + exfalso. apply (Hpath s). reflexivity.
  - intros c0. unfold data_source_set. rewrite Hds, numpy_is_unbound.
    reflexivity.
Qed.

(** X18.  Assigning [":memory:"] connects to a new in-memory database
    without creating the table (the constructor creates it, the setter
    does not): the assignment succeeds, and then [add_point],
    [number_of_points] and [radial_query] all raise the
    [OperationalError] of a missing table. *)
Theorem memory_source_has_no_table (self : QLSCIndex) (ra dec : option Q)
    (center_ra center_dec radius : Q) :
  exists idx,
    data_source_set self (NVStr ":memory:") = (Ok tt, idx)
    /\ data_source idx = DSConnection fresh_connection
    /\ fst (add_point idx ra dec) = Raise no_table_error
    /\ number_of_points idx = Raise no_table_error
    /\ radial_query idx center_ra center_dec radius = Raise no_table_error.
Proof.
  exists (set_source self (DSConnection fresh_connection)).
  split; [| repeat split].
  unfold data_source_set. destruct (_data_source self); reflexivity.
Qed.

(** X19.  Assigning the path of a database file (not [":memory:"], not
    a [file:] URI) that SQLite can open: when no file was there, the
    table is created and the new store is empty and ready; when the file
    existed, its connection is installed as it is.  When SQLite cannot
    open it, an [Exception] is raised and the index keeps its data
    source. *)
Theorem data_source_set_path (self : QLSCIndex) (s : string) :
  String.eqb s ":memory:" = false ->
  String.prefix "file:" s = false ->
  (os_path_exists s = false -> sqlite3_connect s = Some fresh_connection ->
   exists c,
     data_source_set self (NVStr s)
     = (Ok tt, set_source self (DSConnection c))
     /\ usable c /\ visible c = []
     /\ number_of_points (set_source self (DSConnection c)) = Ok 0)
  /\ (forall c0,
        os_path_exists s = true -> sqlite3_connect s = Some c0 ->
        data_source_set self (NVStr s)
        = (Ok tt, set_source self (DSConnection c0)))
  /\ (sqlite3_connect s = None ->
      exists msg, data_source_set self (NVStr s) = (Raise (Exception msg), self)).
Proof.
  intros Hmem Huri.
  split; [| split].
  - intros Hnew Hconn. eexists. unfold data_source_set.
    destruct (_data_source self); rewrite Hmem, Huri, Hnew, Hconn;
      (split; [reflexivity | repeat split]).
  - intros c0 Hold Hconn. unfold data_source_set.
    destruct (_data_source self); rewrite Hmem, Huri, Hold, Hconn;
      reflexivity.
  - intros Hconn. unfold data_source_set.
    destruct (_data_source self); rewrite Hmem, Huri, Hconn;
      destruct (negb (os_path_exists s)); eexists; reflexivity.
Qed.

End MoreOfTheSetter.

(** X17 on the stand-in objects: assigning an array. *)
Lemma data_source_stays_connection_witness :
  is_connection
    (data_source (snd (data_source_set (standin_index []) (NVArray []))))
  = true
  /\ fst (data_source_set (standin_index []) (NVArray []))
     = Raise (NameError "numpy").
Proof.
  destruct (data_source_stays_connection (standin_index [])
              (connection_with []) (NVArray []) eq_refl) as (H1 & H2 & _).
  split; [exact H1 |]. apply H2; intros s; discriminate.
Defined.

(** X19 on the stand-in host, where no file exists and every database
    opens: a new file. *)
Lemma data_source_set_path_witness :
  exists c,
    data_source_set (standin_index []) (NVStr "points.db")
    = (Ok tt, set_source (standin_index []) (DSConnection c))
    /\ usable c /\ visible c = []
    /\ number_of_points (set_source (standin_index []) (DSConnection c))
       = Ok 0.
Proof.
  apply (proj1 (data_source_set_path (standin_index []) "points.db"
                  eq_refl eq_refl));
    reflexivity.
Defined.
